(** * Pomodoro timer sketch: finite state machine, debounced button, metrics

    A shallow embedding of the Arduino sketch (the ThingSpeak variant of the
    pomodoro timer) and proofs about its control loop.

    Target: Arduino UNO R4 WiFi (README), a 32-bit core, so [unsigned long]
    is a 32-bit word that wraps and [int] is a 32-bit signed integer.

    Time.  The world carries a clock in milliseconds since power-on.
    [millis()] reads it (truncated to 32 bits), [delay(ms)] advances it, and
    the environment advances it between two iterations of [loop].  Everything
    else, the calls into the Serial and ThingSpeak libraries included, is
    taken to return within the same clock reading.

    Outputs.  Every effect on the outside (pin writes, delays, telemetry
    calls, serial log lines) is appended to an event trace, newest first. *)

From Stdlib Require Import ZArith List String Bool Lia QArith.
Import ListNotations.
Local Open Scope string_scope.
Local Open Scope list_scope.
Local Open Scope Z_scope.

(** ** Machine integers *)

Definition TWO32 : Z := 4294967296.
Definition INT_MAX : Z := 2147483647.

(** [unsigned long]: arithmetic modulo 2^32. *)
Definition u32 (z : Z) : Z := z mod TWO32.
Definition uadd (a b : Z) : Z := u32 (a + b).
Definition usub (a b : Z) : Z := u32 (a - b).

(** [int]: two's complement wrap-around of the target (the C++ standard
    leaves signed overflow undefined; statements about [++] on an [int]
    assume the counter is below [INT_MAX]). *)
Definition sint (z : Z) : Z := (z + 2147483648) mod TWO32 - 2147483648.

(** ** Configuration constants *)

Definition RGB_COMMON_ANODE : bool := true.

Definition RGB_R : Z := 11.
Definition RGB_G : Z := 10.
Definition RGB_B : Z := 9.

Definition P1 : Z := 2.
Definition P2 : Z := 3.
Definition P3 : Z := 4.
Definition P4 : Z := 5.

Definition BUZZ : Z := 6.
Definition BTN : Z := 7.

Definition WORK_TIME : Z := 10 * 1000.
Definition BREAK_TIME : Z := 10 * 1000.

Definition WAIT_BLINK_MS : Z := 400.

Definition DEBOUNCE_MS : Z := 30.
Definition COOLDOWN_MS : Z := 250.

(** ** Data model *)

Inductive State : Type := IDLE | WORK | BREAK.

Inductive Level : Type := LOW | HIGH.

Inductive PinMode : Type := OUTPUT | INPUT_PULLUP.

Definition State_eqb (a b : State) : bool :=
  match a, b with
  | IDLE, IDLE | WORK, WORK | BREAK, BREAK => true
  | _, _ => false
  end.

Definition Level_eqb (a b : Level) : bool :=
  match a, b with
  | LOW, LOW | HIGH, HIGH => true
  | _, _ => false
  end.

(** What the sketch does to the outside world.  A serial log line is one
    event carrying the values it prints. *)
Inductive Event : Type :=
| EvDigitalWrite (pin : Z) (v : Level)
| EvDelay (ms : Z)
| EvPinMode (pin : Z) (m : PinMode)
| EvSerialBegin (baud : Z)
| EvWiFiBegin
| EvThingSpeakBegin
| EvSetFieldInt (field : Z) (v : Z)
| EvSetFieldFloat (field : Z) (v : Q)
| EvWriteFields
| EvLogState (reason : string) (ms : Z) (s : State) (pomodoros : Z)
             (awaitingBtn : bool)
| EvLogButton (ms : Z) (s : State).

(** Cumulative session-level metrics. *)
Record Metrics : Type := mkMetrics {
  totalSessionTimeMs : Z;
  totalFocusTimeMs : Z;
  totalRestTimeMs : Z;
  totalPomodoroCount : Z
}.

(** Globals of the finite state machine and of the waiting animation. *)
Record Fsm : Type := mkFsm {
  currentState : State;
  phaseStartTime : Z;
  phaseDuration : Z;
  pomodoroCount : Z;
  breakAwaitingButton : bool;
  waitBlinkLast : Z;
  waitBlinkOn : bool
}.

(** The function-local statics of [buttonPressed]. *)
Record Button : Type := mkButton {
  stableState : Level;
  lastReading : Level;
  lastChange : Z;
  lastEvent : Z
}.

Record World : Type := mkWorld {
  metrics : Metrics;
  fsm : Fsm;
  button : Button;
  clock : Z;
  btnLevel : Level;
  out : list Event
}.

(** *** Field updates *)

Definition set_totalSessionTimeMs (v : Z) (m : Metrics) : Metrics :=
  mkMetrics v (totalFocusTimeMs m) (totalRestTimeMs m) (totalPomodoroCount m).
Definition set_totalFocusTimeMs (v : Z) (m : Metrics) : Metrics :=
  mkMetrics (totalSessionTimeMs m) v (totalRestTimeMs m) (totalPomodoroCount m).
Definition set_totalRestTimeMs (v : Z) (m : Metrics) : Metrics :=
  mkMetrics (totalSessionTimeMs m) (totalFocusTimeMs m) v (totalPomodoroCount m).
Definition set_totalPomodoroCount (v : Z) (m : Metrics) : Metrics :=
  mkMetrics (totalSessionTimeMs m) (totalFocusTimeMs m) (totalRestTimeMs m) v.

Definition set_currentState (v : State) (f : Fsm) : Fsm :=
  mkFsm v (phaseStartTime f) (phaseDuration f) (pomodoroCount f)
        (breakAwaitingButton f) (waitBlinkLast f) (waitBlinkOn f).
Definition set_phaseStartTime (v : Z) (f : Fsm) : Fsm :=
  mkFsm (currentState f) v (phaseDuration f) (pomodoroCount f)
        (breakAwaitingButton f) (waitBlinkLast f) (waitBlinkOn f).
Definition set_phaseDuration (v : Z) (f : Fsm) : Fsm :=
  mkFsm (currentState f) (phaseStartTime f) v (pomodoroCount f)
        (breakAwaitingButton f) (waitBlinkLast f) (waitBlinkOn f).
Definition set_pomodoroCount (v : Z) (f : Fsm) : Fsm :=
  mkFsm (currentState f) (phaseStartTime f) (phaseDuration f) v
        (breakAwaitingButton f) (waitBlinkLast f) (waitBlinkOn f).
Definition set_breakAwaitingButton (v : bool) (f : Fsm) : Fsm :=
  mkFsm (currentState f) (phaseStartTime f) (phaseDuration f) (pomodoroCount f)
        v (waitBlinkLast f) (waitBlinkOn f).
Definition set_waitBlinkLast (v : Z) (f : Fsm) : Fsm :=
  mkFsm (currentState f) (phaseStartTime f) (phaseDuration f) (pomodoroCount f)
        (breakAwaitingButton f) v (waitBlinkOn f).
Definition set_waitBlinkOn (v : bool) (f : Fsm) : Fsm :=
  mkFsm (currentState f) (phaseStartTime f) (phaseDuration f) (pomodoroCount f)
        (breakAwaitingButton f) (waitBlinkLast f) v.

Definition set_stableState (v : Level) (b : Button) : Button :=
  mkButton v (lastReading b) (lastChange b) (lastEvent b).
Definition set_lastReading (v : Level) (b : Button) : Button :=
  mkButton (stableState b) v (lastChange b) (lastEvent b).
Definition set_lastChange (v : Z) (b : Button) : Button :=
  mkButton (stableState b) (lastReading b) v (lastEvent b).
Definition set_lastEvent (v : Z) (b : Button) : Button :=
  mkButton (stableState b) (lastReading b) (lastChange b) v.

(** ** The state monad of the sketch *)

Definition M (A : Type) : Type := World -> A * World.

Definition ret {A : Type} (a : A) : M A := fun w => (a, w).

Definition bind {A B : Type} (m : M A) (k : A -> M B) : M B :=
  fun w => let (a, w') := m w in k a w'.

Notation "x <- c1 ;; c2" := (bind c1 (fun x => c2))
  (at level 61, c1 at next level, right associativity).
Notation "c1 ;; c2" := (bind c1 (fun _ => c2))
  (at level 61, right associativity).

Definition gets {A : Type} (p : World -> A) : M A := fun w => (p w, w).

Definition upd_metrics (g : Metrics -> Metrics) : M unit :=
  fun w => (tt, mkWorld (g (metrics w)) (fsm w) (button w)
                        (clock w) (btnLevel w) (out w)).
Definition upd_fsm (g : Fsm -> Fsm) : M unit :=
  fun w => (tt, mkWorld (metrics w) (g (fsm w)) (button w)
                        (clock w) (btnLevel w) (out w)).
Definition upd_button (g : Button -> Button) : M unit :=
  fun w => (tt, mkWorld (metrics w) (fsm w) (g (button w))
                        (clock w) (btnLevel w) (out w)).

Definition emit (e : Event) : M unit :=
  fun w => (tt, mkWorld (metrics w) (fsm w) (button w)
                        (clock w) (btnLevel w) (e :: out w)).

Definition when (b : bool) (m : M unit) : M unit := if b then m else ret tt.

(** *** Arduino primitives *)

Definition millis : M Z := gets (fun w => u32 (clock w)).

Definition delay (ms : Z) : M unit :=
  fun w => (tt, mkWorld (metrics w) (fsm w) (button w)
                        (clock w + ms) (btnLevel w) (EvDelay ms :: out w)).

Definition digitalWrite (pin : Z) (v : Level) : M unit :=
  emit (EvDigitalWrite pin v).

(** Only the button pin is wired as an input. *)
Definition digitalRead (pin : Z) : M Level :=
  gets (fun w => if pin =? BTN then btnLevel w else LOW).

Definition pinMode (pin : Z) (m : PinMode) : M unit := emit (EvPinMode pin m).

(** ** Utilities of the sketch *)

(** [ms / 1000.0]; the rounding to a [float] is not modelled. *)
Definition msToSeconds (ms : Z) : Q := Qmake ms 1000.

Definition logState (reason : string) : M unit :=
  t <- millis;;
  s <- gets (fun w => currentState (fsm w));;
  pc <- gets (fun w => pomodoroCount (fsm w));;
  aw <- gets (fun w => breakAwaitingButton (fsm w));;
  emit (EvLogState reason t s pc aw).

Definition setRGB (r g b : bool) : M unit :=
  if RGB_COMMON_ANODE then
    digitalWrite RGB_R (if r then LOW else HIGH);;
    digitalWrite RGB_G (if g then LOW else HIGH);;
    digitalWrite RGB_B (if b then LOW else HIGH)
  else
    digitalWrite RGB_R (if r then HIGH else LOW);;
    digitalWrite RGB_G (if g then HIGH else LOW);;
    digitalWrite RGB_B (if b then HIGH else LOW).

Definition beep (ms : Z) : M unit :=
  digitalWrite BUZZ HIGH;;
  delay ms;;
  digitalWrite BUZZ LOW.

Definition buttonPressed : M bool :=
  reading <- digitalRead BTN;;
  lr <- gets (fun w => lastReading (button w));;
  when (negb (Level_eqb reading lr))
       (upd_button (set_lastReading reading);;
        t <- millis;;
        upd_button (set_lastChange t));;
  t <- millis;;
  lc <- gets (fun w => lastChange (button w));;
  ss <- gets (fun w => stableState (button w));;
  if (DEBOUNCE_MS <=? usub t lc) && negb (Level_eqb reading ss) then
    upd_button (set_stableState reading);;
    ss' <- gets (fun w => stableState (button w));;
    if Level_eqb ss' LOW then
      now <- millis;;
      le <- gets (fun w => lastEvent (button w));;
      if COOLDOWN_MS <=? usub now le then
        upd_button (set_lastEvent now);;
        ret true
      else ret false
    else ret false
  else ret false.

Definition updateProgressLEDs : M unit :=
  pc <- gets (fun w => pomodoroCount (fsm w));;
  digitalWrite P1 (if 1 <=? pc then HIGH else LOW);;
  digitalWrite P2 (if 2 <=? pc then HIGH else LOW);;
  digitalWrite P3 (if 3 <=? pc then HIGH else LOW);;
  digitalWrite P4 (if 4 <=? pc then HIGH else LOW).

Definition setTotalPomodoroCount (totalPomodoros : Z) : M unit :=
  emit (EvSetFieldInt 1 totalPomodoros).
Definition setTotalWorkingTime (totalTimeMs : Z) : M unit :=
  emit (EvSetFieldFloat 2 (msToSeconds totalTimeMs)).
Definition setTotalFocusTime (focusTimeMs : Z) : M unit :=
  emit (EvSetFieldFloat 3 (msToSeconds focusTimeMs)).
Definition setTotalRestingTime (restingTimeMs : Z) : M unit :=
  emit (EvSetFieldFloat 4 (msToSeconds restingTimeMs)).

(** [ThingSpeak.writeFields(channelID, writeAPIKey)]: the channel and the
    key come from arduino_secrets.h and do not influence the sketch. *)
Definition sendAllMetrics : M unit := emit EvWriteFields.

(** ** State entry functions *)

Definition enterIdle : M unit :=
  upd_fsm (set_currentState IDLE);;
  setRGB false false false;;
  upd_fsm (set_breakAwaitingButton false);;
  logState "ENTER".

Definition enterWork : M unit :=
  upd_fsm (set_currentState WORK);;
  t <- millis;;
  upd_fsm (set_phaseStartTime t);;
  upd_fsm (set_phaseDuration WORK_TIME);;
  upd_fsm (fun f => set_pomodoroCount (sint (pomodoroCount f + 1)) f);;
  pc <- gets (fun w => pomodoroCount (fsm w));;
  when (4 <? pc) (upd_fsm (set_pomodoroCount 4));;
  updateProgressLEDs;;
  setRGB true false false;;
  upd_fsm (set_breakAwaitingButton false);;
  logState "ENTER".

Definition enterBreak : M unit :=
  upd_fsm (set_currentState BREAK);;
  t <- millis;;
  upd_fsm (set_phaseStartTime t);;
  upd_fsm (set_phaseDuration BREAK_TIME);;
  setRGB false false true;;
  upd_fsm (set_breakAwaitingButton false);;
  t' <- millis;;
  upd_fsm (set_waitBlinkLast t');;
  upd_fsm (set_waitBlinkOn true);;
  logState "ENTER".

(** ** Setup and loop *)

Fixpoint repeatM (n : nat) (m : M unit) : M unit :=
  match n with
  | O => ret tt
  | S k => m;; repeatM k m
  end.

(** [wifi_polls] is how many times the connection check fails before the
    network is up; each failure waits half a second. *)
Definition setup (wifi_polls : nat) : M unit :=
  emit EvWiFiBegin;;
  repeatM wifi_polls (delay 500);;
  emit EvThingSpeakBegin;;
  emit (EvSerialBegin 115200);;
  delay 300;;
  pinMode RGB_R OUTPUT;;
  pinMode RGB_G OUTPUT;;
  pinMode RGB_B OUTPUT;;
  pinMode P1 OUTPUT;;
  pinMode P2 OUTPUT;;
  pinMode P3 OUTPUT;;
  pinMode P4 OUTPUT;;
  pinMode BUZZ OUTPUT;;
  pinMode BTN INPUT_PULLUP;;
  upd_fsm (set_pomodoroCount 0);;
  updateProgressLEDs;;
  enterIdle;;
  logState "BOOT".

Definition loop : M unit :=
  now <- millis;;
  pressed <- buttonPressed;;
  if pressed then
    t <- millis;;
    s <- gets (fun w => currentState (fsm w));;
    emit (EvLogButton t s);;
    cs <- gets (fun w => currentState (fsm w));;
    aw <- gets (fun w => breakAwaitingButton (fsm w));;
    if State_eqb cs IDLE then
      upd_fsm (set_pomodoroCount 0);;
      updateProgressLEDs;;
      enterWork
    else if State_eqb cs BREAK && aw then
      t1 <- millis;;
      ps <- gets (fun w => phaseStartTime (fsm w));;
      let breakDurationMs := usub t1 ps in
      upd_metrics (fun m => set_totalRestTimeMs
                              (uadd (totalRestTimeMs m) breakDurationMs) m);;
      pc <- gets (fun w => pomodoroCount (fsm w));;
      when (4 <=? pc)
           (upd_fsm (set_pomodoroCount 0);;
            updateProgressLEDs);;
      enterWork
    else
      enterIdle
  else
    cs <- gets (fun w => currentState (fsm w));;
    if State_eqb cs WORK then
      t <- millis;;
      ps <- gets (fun w => phaseStartTime (fsm w));;
      pd <- gets (fun w => phaseDuration (fsm w));;
      when (pd <=? usub t ps)
           (beep 200;;
            upd_metrics (fun m => set_totalPomodoroCount
                                    (sint (totalPomodoroCount m + 1)) m);;
            t2 <- millis;;
            ps2 <- gets (fun w => phaseStartTime (fsm w));;
            let workDurationMs := usub t2 ps2 in
            upd_metrics (fun m => set_totalFocusTimeMs
                                    (uadd (totalFocusTimeMs m) workDurationMs) m);;
            m <- gets metrics;;
            setTotalPomodoroCount (totalPomodoroCount m);;
            setTotalFocusTime (totalFocusTimeMs m);;
            setTotalRestingTime (totalRestTimeMs m);;
            setTotalWorkingTime (totalSessionTimeMs m);;
            sendAllMetrics;;
            pc <- gets (fun w => pomodoroCount (fsm w));;
            when (4 <? pc) (upd_fsm (set_pomodoroCount 4));;
            updateProgressLEDs;;
            enterBreak)
    else if State_eqb cs BREAK then
      aw <- gets (fun w => breakAwaitingButton (fsm w));;
      t <- millis;;
      ps <- gets (fun w => phaseStartTime (fsm w));;
      pd <- gets (fun w => phaseDuration (fsm w));;
      when (negb aw && (pd <=? usub t ps))
           (beep 200;;
            t2 <- millis;;
            upd_metrics (set_totalSessionTimeMs t2);;
            m <- gets metrics;;
            setTotalPomodoroCount (totalPomodoroCount m);;
            setTotalFocusTime (totalFocusTimeMs m);;
            setTotalRestingTime (totalRestTimeMs m);;
            setTotalWorkingTime (totalSessionTimeMs m);;
            sendAllMetrics;;
            upd_fsm (set_breakAwaitingButton true);;
            logState "BREAK finished (waiting for button)");;
      aw' <- gets (fun w => breakAwaitingButton (fsm w));;
      when aw'
           (wbl <- gets (fun w => waitBlinkLast (fsm w));;
            when (WAIT_BLINK_MS <=? usub now wbl)
                 (upd_fsm (set_waitBlinkLast now);;
                  upd_fsm (fun f => set_waitBlinkOn (negb (waitBlinkOn f)) f);;
                  on <- gets (fun w => waitBlinkOn (fsm w));;
                  if on then setRGB false false true
                  else setRGB false false false))
    else ret tt.

(** ** The earlier sketch (pomodoro_pro_sketch.ino)

    The same machine without networking and metrics: other pins for the
    progress LEDs, shorter test durations, and the progress counter
    incremented when a work phase completes instead of when it starts.
    [buttonPressed], [setRGB], [beep] and [logState] are the same text. *)
Module Legacy.

Definition P1 : Z := 5.
Definition P2 : Z := 4.
Definition P3 : Z := 3.
Definition P4 : Z := 2.

Definition WORK_TIME : Z := 5 * 1000.
Definition BREAK_TIME : Z := 3 * 1000.

Definition updateProgressLEDs : M unit :=
  pc <- gets (fun w => pomodoroCount (fsm w));;
  digitalWrite P1 (if 1 <=? pc then HIGH else LOW);;
  digitalWrite P2 (if 2 <=? pc then HIGH else LOW);;
  digitalWrite P3 (if 3 <=? pc then HIGH else LOW);;
  digitalWrite P4 (if 4 <=? pc then HIGH else LOW).

Definition enterIdle : M unit :=
  upd_fsm (set_currentState IDLE);;
  setRGB false false false;;
  upd_fsm (set_breakAwaitingButton false);;
  logState "ENTER".

Definition enterWork : M unit :=
  upd_fsm (set_currentState WORK);;
  t <- millis;;
  upd_fsm (set_phaseStartTime t);;
  upd_fsm (set_phaseDuration WORK_TIME);;
  setRGB true false false;;
  upd_fsm (set_breakAwaitingButton false);;
  logState "ENTER".

Definition enterBreak : M unit :=
  upd_fsm (set_currentState BREAK);;
  t <- millis;;
  upd_fsm (set_phaseStartTime t);;
  upd_fsm (set_phaseDuration BREAK_TIME);;
  setRGB false false true;;
  upd_fsm (set_breakAwaitingButton false);;
  t' <- millis;;
  upd_fsm (set_waitBlinkLast t');;
  upd_fsm (set_waitBlinkOn true);;
  logState "ENTER".

Definition setup : M unit :=
  emit (EvSerialBegin 115200);;
  delay 300;;
  pinMode RGB_R OUTPUT;;
  pinMode RGB_G OUTPUT;;
  pinMode RGB_B OUTPUT;;
  pinMode P1 OUTPUT;;
  pinMode P2 OUTPUT;;
  pinMode P3 OUTPUT;;
  pinMode P4 OUTPUT;;
  pinMode BUZZ OUTPUT;;
  pinMode BTN INPUT_PULLUP;;
  upd_fsm (set_pomodoroCount 0);;
  updateProgressLEDs;;
  enterIdle;;
  logState "BOOT".

Definition loop : M unit :=
  now <- millis;;
  pressed <- buttonPressed;;
  if pressed then
    t <- millis;;
    s <- gets (fun w => currentState (fsm w));;
    emit (EvLogButton t s);;
    cs <- gets (fun w => currentState (fsm w));;
    aw <- gets (fun w => breakAwaitingButton (fsm w));;
    if State_eqb cs IDLE then
      upd_fsm (set_pomodoroCount 0);;
      updateProgressLEDs;;
      enterWork
    else if State_eqb cs BREAK && aw then
      pc <- gets (fun w => pomodoroCount (fsm w));;
      when (4 <=? pc)
           (upd_fsm (set_pomodoroCount 0);;
            updateProgressLEDs);;
      enterWork
    else
      enterIdle
  else
    cs <- gets (fun w => currentState (fsm w));;
    if State_eqb cs WORK then
      t <- millis;;
      ps <- gets (fun w => phaseStartTime (fsm w));;
      pd <- gets (fun w => phaseDuration (fsm w));;
      when (pd <=? usub t ps)
           (beep 200;;
            upd_fsm (fun f => set_pomodoroCount (sint (pomodoroCount f + 1)) f);;
            pc <- gets (fun w => pomodoroCount (fsm w));;
            when (4 <? pc) (upd_fsm (set_pomodoroCount 4));;
            updateProgressLEDs;;
            enterBreak)
    else if State_eqb cs BREAK then
      aw <- gets (fun w => breakAwaitingButton (fsm w));;
      t <- millis;;
      ps <- gets (fun w => phaseStartTime (fsm w));;
      pd <- gets (fun w => phaseDuration (fsm w));;
      when (negb aw && (pd <=? usub t ps))
           (beep 200;;
            upd_fsm (set_breakAwaitingButton true);;
            logState "BREAK finished (waiting for button)");;
      aw' <- gets (fun w => breakAwaitingButton (fsm w));;
      when aw'
           (wbl <- gets (fun w => waitBlinkLast (fsm w));;
            when (WAIT_BLINK_MS <=? usub now wbl)
                 (upd_fsm (set_waitBlinkLast now);;
                  upd_fsm (fun f => set_waitBlinkOn (negb (waitBlinkOn f)) f);;
                  on <- gets (fun w => waitBlinkOn (fsm w));;
                  if on then setRGB false false true
                  else setRGB false false false))
    else ret tt.

End Legacy.

(** ** Running the sketch *)

(** The world when the sketch starts: C++ static initialisation. *)
Definition power_on (lvl : Level) : World :=
  mkWorld (mkMetrics 0 0 0 0)
          (mkFsm IDLE 0 0 0 false 0 false)
          (mkButton HIGH HIGH 0 0)
          0 lvl [].

(** The environment between two iterations: [dt] milliseconds pass and the
    button pin takes the level [lvl]. *)
Definition elapse (dt : Z) (lvl : Level) (w : World) : World :=
  mkWorld (metrics w) (fsm w) (button w) (clock w + dt) lvl (out w).

Definition exec {A : Type} (m : M A) (w : World) : World := snd (m w).

(** One iteration of the control loop as the environment sees it. *)
Definition tick (dt : Z) (lvl : Level) (w : World) : World :=
  exec loop (elapse dt lvl w).

Definition boot (wifi_polls : nat) (lvl : Level) : World :=
  exec (setup wifi_polls) (power_on lvl).

Fixpoint run (inputs : list (Z * Level)) (w : World) : World :=
  match inputs with
  | [] => w
  | (dt, lvl) :: rest => run rest (tick dt lvl w)
  end.

Inductive reachable : World -> Prop :=
| reach_boot : forall n lvl, reachable (boot n lvl)
| reach_tick : forall w dt lvl,
    reachable w -> 0 <= dt -> reachable (tick dt lvl w).

(** ** Observations used in the statements *)

(** Whether the iteration of [loop] that starts in [w] consumes a press. *)
Definition pressed_in (w : World) : bool := fst (buttonPressed w).

(** The events a computation appends to the trace, oldest first. *)
Definition emitted_by {A : Type} (m : M A) (w : World) : list Event :=
  rev (firstn (List.length (out (exec m w)) - List.length (out w))
              (out (exec m w))).

Definition is_telemetry (e : Event) : bool :=
  match e with
  | EvSetFieldInt _ _ | EvSetFieldFloat _ _ | EvWriteFields => true
  | _ => false
  end.

(** The rising edge on the buzzer pin that starts an audible pulse. *)
Definition is_pulse (e : Event) : bool :=
  match e with
  | EvDigitalWrite pin v => (pin =? BUZZ) && Level_eqb v HIGH
  | _ => false
  end.

Definition is_button_log (e : Event) : bool :=
  match e with
  | EvLogButton _ _ => true
  | _ => false
  end.

(** The log line written by the entry function of state [s]. *)
Definition is_entry (s : State) (e : Event) : bool :=
  match e with
  | EvLogState reason _ s' _ _ => String.eqb reason "ENTER" && State_eqb s' s
  | _ => false
  end.

Definition count (p : Event -> bool) (evs : list Event) : nat :=
  List.length (filter p evs).

(** The timer conditions as [loop] evaluates them on a tick without press. *)
Definition work_expires (w : World) : bool :=
  negb (pressed_in w)
  && State_eqb (currentState (fsm w)) WORK
  && (phaseDuration (fsm w) <=? usub (u32 (clock w)) (phaseStartTime (fsm w))).

Definition break_expires (w : World) : bool :=
  negb (pressed_in w)
  && State_eqb (currentState (fsm w)) BREAK
  && negb (breakAwaitingButton (fsm w))
  && (phaseDuration (fsm w) <=? usub (u32 (clock w)) (phaseStartTime (fsm w))).

(** What it means for an iteration [lp] started in [w] to keep press handling
    and time-based logic apart.  With a press: none of the effects of the
    timers (pulse, telemetry, entry into BREAK, waiting flag, blink toggle,
    time spent, the metrics the timers maintain).  Without a press: none of
    the effects of the press handler (button log, entry into IDLE or WORK,
    rest time), and the state stays or goes from WORK to BREAK. *)
Definition exclusive (lp : M unit) (w : World) : Prop :=
  if pressed_in w then
    count is_button_log (emitted_by lp w) = 1%nat /\
    count is_pulse (emitted_by lp w) = 0%nat /\
    filter is_telemetry (emitted_by lp w) = [] /\
    count (is_entry BREAK) (emitted_by lp w) = 0%nat /\
    clock (exec lp w) = clock w /\
    totalPomodoroCount (metrics (exec lp w)) = totalPomodoroCount (metrics w) /\
    totalFocusTimeMs (metrics (exec lp w)) = totalFocusTimeMs (metrics w) /\
    totalSessionTimeMs (metrics (exec lp w)) = totalSessionTimeMs (metrics w) /\
    waitBlinkLast (fsm (exec lp w)) = waitBlinkLast (fsm w) /\
    waitBlinkOn (fsm (exec lp w)) = waitBlinkOn (fsm w) /\
    breakAwaitingButton (fsm (exec lp w)) = false /\
    currentState (fsm (exec lp w)) <> BREAK
  else
    count is_button_log (emitted_by lp w) = 0%nat /\
    count (is_entry IDLE) (emitted_by lp w) = 0%nat /\
    count (is_entry WORK) (emitted_by lp w) = 0%nat /\
    totalRestTimeMs (metrics (exec lp w)) = totalRestTimeMs (metrics w) /\
    (currentState (fsm (exec lp w)) = currentState (fsm w) \/
     (currentState (fsm w) = WORK /\ currentState (fsm (exec lp w)) = BREAK)).

(** The four staged fields and the transmission, as both flushes issue them. *)
Definition flush_events (m : Metrics) : list Event :=
  [ EvSetFieldInt 1 (totalPomodoroCount m);
    EvSetFieldFloat 3 (msToSeconds (totalFocusTimeMs m));
    EvSetFieldFloat 4 (msToSeconds (totalRestTimeMs m));
    EvSetFieldFloat 2 (msToSeconds (totalSessionTimeMs m));
    EvWriteFields ].

(** Reading the history off a trace (newest event first): has a press been
    consumed since BREAK was last entered, and when was it entered. *)
Fixpoint pressSinceBreak (tr : list Event) : bool :=
  match tr with
  | [] => false
  | e :: rest =>
      if is_button_log e then true
      else if is_entry BREAK e then false
      else pressSinceBreak rest
  end.

Fixpoint lastBreakEntry (tr : list Event) : option Z :=
  match tr with
  | [] => None
  | e :: rest =>
      if is_entry BREAK e then
        match e with
        | EvLogState _ ms _ _ _ => Some ms
        | _ => None
        end
      else lastBreakEntry rest
  end.

(** *** Driving the edge detector alone *)

Definition set_input (t : Z) (lvl : Level) (w : World) : World :=
  mkWorld (metrics w) (fsm w) (button w) t lvl (out w).

(** One call of [buttonPressed] at time [t] with raw level [lvl]. *)
Definition poll (t : Z) (lvl : Level) (w : World) : bool * World :=
  buttonPressed (set_input t lvl w).

Fixpoint polls (calls : list (Z * Level)) (w : World) : list bool * World :=
  match calls with
  | [] => ([], w)
  | (t, lvl) :: rest =>
      let (p, w1) := poll t lvl w in
      let (ps, w2) := polls rest w1 in
      (p :: ps, w2)
  end.

(** Timestamps of the calls that reported a press. *)
Fixpoint press_times (calls : list (Z * Level)) (w : World) : list Z :=
  match calls with
  | [] => []
  | (t, lvl) :: rest =>
      let (p, w1) := poll t lvl w in
      if p then t :: press_times rest w1 else press_times rest w1
  end.

Definition count_true (l : list bool) : nat :=
  List.length (filter (fun b => b) l).

(** Timestamps that fit the clock and never go back, starting at [lo]. *)
Fixpoint timestamps_from (lo : Z) (calls : list (Z * Level)) : Prop :=
  match calls with
  | [] => True
  | (t, _) :: rest => lo <= t < TWO32 /\ timestamps_from t rest
  end.

Definition held_low (calls : list (Z * Level)) : Prop :=
  Forall (fun c => snd c = LOW) calls.

(** *** Invariants of the running sketch *)

Definition Inv (w : World) : Prop :=
  (breakAwaitingButton (fsm w) = true -> currentState (fsm w) = BREAK) /\
  (currentState (fsm w) = WORK -> phaseDuration (fsm w) = WORK_TIME) /\
  (currentState (fsm w) = BREAK -> phaseDuration (fsm w) = BREAK_TIME) /\
  0 <= pomodoroCount (fsm w) <= 4 /\
  - INT_MAX - 1 <= totalPomodoroCount (metrics w) <= INT_MAX /\
  0 <= clock w.

Definition BreakInv (w : World) : Prop :=
  currentState (fsm w) = BREAK ->
  0 <= phaseStartTime (fsm w) <= clock w /\
  lastBreakEntry (out w) = Some (phaseStartTime (fsm w)) /\
  pressSinceBreak (out w) = false /\
  (breakAwaitingButton (fsm w) = true <->
   BREAK_TIME <= clock w - phaseStartTime (fsm w)).

(** The loop-entry world of the first iteration of a run that stages or
    transmits telemetry, if there is one. *)
Fixpoint first_flush (inputs : list (Z * Level)) (w : World) : option World :=
  match inputs with
  | [] => None
  | (dt, lvl) :: rest =>
      let w1 := elapse dt lvl w in
      match filter is_telemetry (emitted_by loop w1) with
      | [] => first_flush rest (exec loop w1)
      | _ :: _ => Some w1
      end
  end.

(** *** Concrete scenarios *)

(** A clean press and release: the level goes low, is still low 30 ms later
    (accepted, press reported), goes high and is accepted high again. *)
Definition press : list (Z * Level) :=
  [(10, LOW); (30, LOW); (10, HIGH); (40, HIGH)].

(** A press, a full work phase, a full break. *)
Definition cycle : list (Z * Level) :=
  press ++ [(10000, HIGH); (10000, HIGH)].

Definition four_cycles : list (Z * Level) :=
  cycle ++ cycle ++ cycle ++ cycle.

(** The loop-entry world in which the detector is about to report a press:
    the button went low 300 ms after [w] and is still low 30 ms later. *)
Definition pressing (w : World) : World := elapse 30 LOW (tick 300 LOW w).

Definition idle_press : World := pressing (boot 0 HIGH).
Definition working : World := run press (boot 0 HIGH).
Definition work_press : World := pressing working.
Definition awaiting : World := run cycle (boot 0 HIGH).
Definition resumed : World := run (cycle ++ press) (boot 0 HIGH).
Definition resume_at_cap : World := pressing (run four_cycles (boot 0 HIGH)).

(** Detector calls: a first press and release, then a second press that
    starts 50 ms after the first press was reported and is held. *)
Definition first_press : list (Z * Level) :=
  [(1000, LOW); (1030, LOW); (1040, HIGH); (1070, HIGH)].
Definition second_hold : list (Z * Level) :=
  [(1080, LOW); (1110, LOW); (1140, LOW); (2000, LOW); (60000, LOW)].
Definition after_first_press : World :=
  snd (polls first_press (power_on HIGH)).

(** *** Further observations: pins, transitions, blinking, accounting *)

(** The level last written to [pin], read off a trace (newest event first). *)
Fixpoint pin_level (pin : Z) (tr : list Event) : option Level :=
  match tr with
  | [] => None
  | EvDigitalWrite p v :: rest =>
      if p =? pin then Some v else pin_level pin rest
  | _ :: rest => pin_level pin rest
  end.

Definition is_lit (e : Event) : bool :=
  match e with
  | EvDigitalWrite _ HIGH => true
  | _ => false
  end.

Definition is_pinmode (e : Event) : bool :=
  match e with
  | EvPinMode _ _ => true
  | _ => false
  end.

(** The pins [setup] configures as outputs. *)
Definition output_pins : list Z :=
  [RGB_R; RGB_G; RGB_B; P1; P2; P3; P4; BUZZ].

(** A write the wiring allows: to an output pin, and never the green
    channel of the common-anode LED switched on. *)
Definition write_ok (e : Event) : bool :=
  match e with
  | EvDigitalWrite p v =>
      existsb (Z.eqb p) output_pins
      && negb ((p =? RGB_G) && Level_eqb v LOW)
  | _ => true
  end.

(** The transition table of the machine: the next state and the next value
    of the waiting flag, from whether a press was consumed, the state, the
    flag and whether the phase timer has run out. *)
Definition next_state (pressed : bool) (s : State) (aw expired : bool)
  : State :=
  if pressed then
    match s with
    | IDLE => WORK
    | WORK => IDLE
    | BREAK => if aw then WORK else IDLE
    end
  else
    match s with
    | IDLE => IDLE
    | WORK => if expired then BREAK else WORK
    | BREAK => BREAK
    end.

Definition next_awaiting (pressed : bool) (s : State) (aw expired : bool)
  : bool :=
  if pressed then false
  else
    match s with
    | IDLE => aw
    | WORK => aw && negb expired
    | BREAK => aw || expired
    end.

Definition timer_expired (w : World) : bool :=
  phaseDuration (fsm w) <=? usub (u32 (clock w)) (phaseStartTime (fsm w)).

(** The waiting animation is due: the machine awaits the button and the
    last toggle is at least [WAIT_BLINK_MS] old. *)
Definition blink_due (w : World) : bool :=
  State_eqb (currentState (fsm w)) BREAK
  && breakAwaitingButton (fsm w)
  && (WAIT_BLINK_MS <=? usub (u32 (clock w)) (waitBlinkLast (fsm w))).

(** What the indicators show in every state the sketch reaches. *)
Definition Shown (w : World) : Prop :=
  pin_level P1 (out w) =
    Some (if 1 <=? pomodoroCount (fsm w) then HIGH else LOW) /\
  pin_level P2 (out w) =
    Some (if 2 <=? pomodoroCount (fsm w) then HIGH else LOW) /\
  pin_level P3 (out w) =
    Some (if 3 <=? pomodoroCount (fsm w) then HIGH else LOW) /\
  pin_level P4 (out w) =
    Some (if 4 <=? pomodoroCount (fsm w) then HIGH else LOW) /\
  pin_level RGB_R (out w) =
    Some (match currentState (fsm w) with WORK => LOW | _ => HIGH end) /\
  pin_level RGB_G (out w) = Some HIGH /\
  pin_level RGB_B (out w) =
    Some (match currentState (fsm w) with
          | BREAK => if waitBlinkOn (fsm w) then LOW else HIGH
          | _ => HIGH
          end) /\
  (pin_level BUZZ (out w) = None \/ pin_level BUZZ (out w) = Some LOW) /\
  forallb write_ok (out w) = true.

(** The start of the time that the cumulative metrics have not yet
    accounted for: the start of the running phase, or now in IDLE. *)
Definition phase_floor (w : World) : Z :=
  match currentState (fsm w) with
  | IDLE => clock w
  | _ => phaseStartTime (fsm w)
  end.

(** How the metrics relate to the clock while it has not wrapped. *)
Definition Accounted (w : World) : Prop :=
  0 <= totalFocusTimeMs (metrics w) /\
  0 <= totalRestTimeMs (metrics w) /\
  totalPomodoroCount (metrics w) * (WORK_TIME + 200)
    <= totalFocusTimeMs (metrics w) /\
  totalFocusTimeMs (metrics w) + totalRestTimeMs (metrics w)
    <= phase_floor w /\
  0 <= phase_floor w <= clock w /\
  0 <= totalSessionTimeMs (metrics w) <= clock w /\
  Z.of_nat (count (is_entry BREAK) (out w)) = totalPomodoroCount (metrics w).

(** What holds of the progress counter, the blink variables and the
    detector in every state the sketch reaches. *)
Definition Steady (w : World) : Prop :=
  (currentState (fsm w) <> IDLE -> 1 <= pomodoroCount (fsm w) <= 4) /\
  (currentState (fsm w) = BREAK -> breakAwaitingButton (fsm w) = false ->
   waitBlinkOn (fsm w) = true /\
   waitBlinkLast (fsm w) = phaseStartTime (fsm w)) /\
  300 <= clock w /\
  (count is_button_log (out w) = 0%nat -> lastEvent (button w) = 0).

(** What [setup] emits after the wait for the network, oldest first; [t] is
    the clock reading when it logs. *)
Definition setup_tail (t : Z) : list Event :=
  [ EvThingSpeakBegin; EvSerialBegin 115200; EvDelay 300;
    EvPinMode RGB_R OUTPUT; EvPinMode RGB_G OUTPUT; EvPinMode RGB_B OUTPUT;
    EvPinMode P1 OUTPUT; EvPinMode P2 OUTPUT; EvPinMode P3 OUTPUT;
    EvPinMode P4 OUTPUT; EvPinMode BUZZ OUTPUT; EvPinMode BTN INPUT_PULLUP;
    EvDigitalWrite P1 LOW; EvDigitalWrite P2 LOW; EvDigitalWrite P3 LOW;
    EvDigitalWrite P4 LOW;
    EvDigitalWrite RGB_R HIGH; EvDigitalWrite RGB_G HIGH;
    EvDigitalWrite RGB_B HIGH;
    EvLogState "ENTER" t IDLE 0 false;
    EvLogState "BOOT" t IDLE 0 false ].

(** A run in which no iteration consumes a press. *)
Fixpoint no_press (inputs : list (Z * Level)) (w : World) : Prop :=
  match inputs with
  | [] => True
  | (dt, lvl) :: rest =>
      pressed_in (elapse dt lvl w) = false /\ no_press rest (tick dt lvl w)
  end.

(** Further scenarios: WORK shortly after it started and when its timer has
    run out, BREAK before its timer has run out, the machine awaiting the
    button with a blink due, and the button just gone low after power-up. *)
Definition quiet_work : World := elapse 10 HIGH working.
Definition expired_work : World := elapse 10000 HIGH working.
Definition resting : World := run (press ++ [(10000, HIGH)]) (boot 0 HIGH).
Definition blinking : World := elapse 500 HIGH awaiting.
Definition first_low : World := tick 300 LOW (boot 0 HIGH).

(** * Proofs *)

(** ** Symbolic execution of the monad *)

Ltac mstep :=
  cbv [bind ret gets upd_metrics upd_fsm upd_button emit when millis delay
       digitalWrite digitalRead pinMode logState setRGB beep updateProgressLEDs
       setTotalPomodoroCount setTotalWorkingTime setTotalFocusTime
       setTotalRestingTime sendAllMetrics enterIdle enterWork enterBreak
       Legacy.updateProgressLEDs Legacy.enterIdle Legacy.enterWork
       Legacy.enterBreak
       exec fst snd BTN Z.eqb Pos.eqb
       metrics fsm button clock btnLevel out
       totalSessionTimeMs totalFocusTimeMs totalRestTimeMs totalPomodoroCount
       currentState phaseStartTime phaseDuration pomodoroCount
       breakAwaitingButton waitBlinkLast waitBlinkOn
       stableState lastReading lastChange lastEvent
       set_totalSessionTimeMs set_totalFocusTimeMs set_totalRestTimeMs
       set_totalPomodoroCount set_currentState set_phaseStartTime
       set_phaseDuration set_pomodoroCount set_breakAwaitingButton
       set_waitBlinkLast set_waitBlinkOn set_stableState set_lastReading
       set_lastChange set_lastEvent elapse set_input
       State_eqb Level_eqb andb negb orb RGB_COMMON_ANODE] in *;
  try change (sint (0 + 1)) with 1 in *;
  try change (4 <? 1) with false in *.

Ltac mcase c :=
  lazymatch c with
  | (if ?x then _ else _) => mcase x
  | _ => let E := fresh "C" in
         destruct c eqn:E;
         repeat match goal with
                | H : context [ c ] |- _ =>
                    lazymatch H with
                    | E => fail
                    | _ => rewrite E in H
                    end
                end
  end.

Ltac msplit :=
  match goal with
  | |- context [ (if ?c then _ else _) ?w ] => mcase c
  | H : context [ (if ?c then _ else _) ?w ] |- _ => mcase c
  end.

Ltac mrun := mstep; repeat (msplit; mstep).

Ltac open_world w :=
  let m := fresh "m" in
  let f := fresh "f" in
  let b := fresh "b" in
  destruct w as [m f b ? ? ?]; destruct m, f, b.

(** [buttonPressed] touches nothing but its own statics. *)
Lemma buttonPressed_frame (w w1 : World) (p : bool) :
  buttonPressed w = (p, w1) ->
  exists b1,
    w1 = mkWorld (metrics w) (fsm w) b1 (clock w) (btnLevel w) (out w).
Proof.
  intros H. open_world w. unfold buttonPressed in H.
  destruct btnLevel0, lastReading0, stableState0; mrun.
  all: inversion H; subst; mstep; eexists; reflexivity.
Qed.

Ltac call_button :=
  match goal with
  | |- context [ buttonPressed ?w ] =>
      let p := fresh "pressed" in
      let w1 := fresh "w" in
      let E := fresh "Ebtn" in
      let b1 := fresh "b" in
      let F := fresh "F" in
      destruct (buttonPressed w) as [p w1] eqn:E;
      destruct (buttonPressed_frame _ _ _ E) as [b1 F];
      subst w1; destruct b1; try rewrite E in * |-; mstep
  end.

(** Entering [loop] in a destructured world, past the button poll. *)
Ltac enter_loop w :=
  open_world w; unfold work_expires, break_expires, emitted_by, tick in *;
  unfold pressed_in in *;
  unfold loop in *; mstep; call_button; subst.

Lemma firstn_prefix (evs o : list Event) :
  firstn (List.length (evs ++ o) - List.length o) (evs ++ o) = evs.
Proof.
  rewrite List.length_app, Nat.add_sub.
  rewrite firstn_app, Nat.sub_diag, firstn_all. simpl.
  now rewrite app_nil_r.
Qed.

Ltac prefix_of t o :=
  lazymatch t with
  | o => constr:(@nil Event)
  | ?e :: ?r => let p := prefix_of r o in constr:(e :: p)
  end.

(** Turns [emitted_by] on an explicit trace into the explicit new events. *)
Ltac emit_norm :=
  repeat match goal with
         | |- context [ firstn (List.length ?o - List.length ?o) ?o ] =>
             rewrite (Nat.sub_diag (List.length o));
             change (firstn 0 o) with (@nil Event)
         | |- context [ firstn (List.length ?t - List.length ?o) ?t ] =>
             let p := prefix_of t o in
             change t with (p ++ o); rewrite (firstn_prefix p o)
         end.

Ltac finish := emit_norm; repeat split; try reflexivity; try discriminate.

(** ** Machine arithmetic without overflow *)

Lemma u32_small (z : Z) : 0 <= z < TWO32 -> u32 z = z.
Proof. intros H. unfold u32. now apply Z.mod_small. Qed.

Lemma sint_small (z : Z) : -2147483648 <= z < 2147483648 -> sint z = z.
Proof.
  intros H. unfold sint, TWO32. rewrite Z.mod_small; lia.
Qed.

Ltac no_wrap :=
  unfold usub, uadd in *;
  repeat match goal with
         | H : context [ u32 ?z ] |- _ => rewrite (u32_small z) in H by lia
         | |- context [ u32 ?z ] => rewrite (u32_small z) by lia
         end.

Ltac bools :=
  repeat match goal with
         | H : (_ <=? _) = true |- _ => apply Z.leb_le in H
         | H : (_ <=? _) = false |- _ => apply Z.leb_gt in H
         | H : (_ <? _) = true |- _ => apply Z.ltb_lt in H
         | H : (_ <? _) = false |- _ => apply Z.ltb_ge in H
         end.

(** ** Boot *)

Lemma repeat_snoc (e : Event) (n : nat) (l : list Event) :
  repeat e n ++ e :: l = e :: repeat e n ++ l.
Proof.
  induction n as [|k IH]; cbn [repeat app]; [reflexivity | now rewrite IH].
Qed.

Lemma repeat_delay (n : nat) (ms : Z) (w : World) :
  repeatM n (delay ms) w =
  (tt, mkWorld (metrics w) (fsm w) (button w) (clock w + Z.of_nat n * ms)
               (btnLevel w) (repeat (EvDelay ms) n ++ out w)).
Proof.
  revert w. induction n as [|k IH]; intros w.
  - destruct w. cbn [repeatM ret repeat app metrics fsm button clock btnLevel out].
    now rewrite Z.add_0_r.
  - cbn [repeatM]. unfold bind at 1. cbn [delay]. rewrite IH.
    cbn [metrics fsm button clock btnLevel out repeat app].
    rewrite repeat_snoc. do 2 f_equal. lia.
Qed.

(** What [setup] leaves behind: the static initial values, the machine in
    IDLE, and a trace without telemetry or button events. *)
Lemma boot_world (n : nat) (lvl : Level) :
  exists tr,
    boot n lvl =
    mkWorld (mkMetrics 0 0 0 0) (mkFsm IDLE 0 0 0 false 0 false)
            (mkButton HIGH HIGH 0 0) (Z.of_nat n * 500 + 300) lvl tr /\
    filter is_telemetry tr = [].
Proof.
  unfold boot, setup, exec.
  set (wait := repeatM n (delay 500)).
  cbv [bind emit power_on metrics fsm button clock btnLevel out].
  subst wait. rewrite repeat_delay. mstep.
  eexists. split; [reflexivity|].
  cbn [filter is_telemetry].
  induction n as [|k IH]; cbn [repeat app filter is_telemetry];
    [reflexivity | exact IH].
Qed.

(** ** Presses *)

(** C1, as amended.  A press consumed in IDLE puts the machine in WORK in
    the same iteration: the progress counter is cleared (all four progress
    LEDs are driven low) and then incremented by [enterWork], so it is 1 when
    the iteration returns and the first LED is lit; the cumulative metrics,
    [totalPomodoroCount] among them, are untouched; the phase timer starts
    at the current clock reading with the work duration. *)
Theorem press_in_idle_starts_work (w : World) :
  pressed_in w = true ->
  currentState (fsm w) = IDLE ->
  currentState (fsm (exec loop w)) = WORK /\
  pomodoroCount (fsm (exec loop w)) = 1 /\
  metrics (exec loop w) = metrics w /\
  phaseStartTime (fsm (exec loop w)) = u32 (clock w) /\
  phaseDuration (fsm (exec loop w)) = WORK_TIME /\
  breakAwaitingButton (fsm (exec loop w)) = false /\
  emitted_by loop w =
    [ EvLogButton (u32 (clock w)) IDLE;
      EvDigitalWrite P1 LOW; EvDigitalWrite P2 LOW;
      EvDigitalWrite P3 LOW; EvDigitalWrite P4 LOW;
      EvDigitalWrite P1 HIGH; EvDigitalWrite P2 LOW;
      EvDigitalWrite P3 LOW; EvDigitalWrite P4 LOW;
      EvDigitalWrite RGB_R LOW; EvDigitalWrite RGB_G HIGH;
      EvDigitalWrite RGB_B HIGH;
      EvLogState "ENTER" (u32 (clock w)) WORK 1 false ].
Proof.
  intros Hp Hs. enter_loop w. mrun. finish.
Qed.

(** C6, as amended.  A press consumed in BREAK while the machine awaits the
    button resumes WORK; [totalRestTimeMs] grows by the time really elapsed
    since BREAK was entered (clock reading minus [phaseStartTime], in
    [unsigned long] arithmetic), whatever the configured break length; the
    other metrics are untouched.  A progress counter at the cap of 4 is
    cleared (all four progress LEDs are driven low) and then incremented by
    [enterWork], so it is 1 when the iteration returns and the first LED is
    lit; below the cap it is incremented. *)
Theorem resume_press_records_rest (w : World) :
  pressed_in w = true ->
  currentState (fsm w) = BREAK ->
  breakAwaitingButton (fsm w) = true ->
  currentState (fsm (exec loop w)) = WORK /\
  totalRestTimeMs (metrics (exec loop w)) =
    uadd (totalRestTimeMs (metrics w))
         (usub (u32 (clock w)) (phaseStartTime (fsm w))) /\
  totalSessionTimeMs (metrics (exec loop w)) = totalSessionTimeMs (metrics w) /\
  totalFocusTimeMs (metrics (exec loop w)) = totalFocusTimeMs (metrics w) /\
  totalPomodoroCount (metrics (exec loop w)) = totalPomodoroCount (metrics w) /\
  pomodoroCount (fsm (exec loop w)) =
    (if 4 <=? pomodoroCount (fsm w) then 1
     else if 4 <? sint (pomodoroCount (fsm w) + 1) then 4
          else sint (pomodoroCount (fsm w) + 1)) /\
  phaseStartTime (fsm (exec loop w)) = u32 (clock w) /\
  phaseDuration (fsm (exec loop w)) = WORK_TIME /\
  breakAwaitingButton (fsm (exec loop w)) = false /\
  (4 <= pomodoroCount (fsm w) ->
   emitted_by loop w =
     [ EvLogButton (u32 (clock w)) BREAK;
       EvDigitalWrite P1 LOW; EvDigitalWrite P2 LOW;
       EvDigitalWrite P3 LOW; EvDigitalWrite P4 LOW;
       EvDigitalWrite P1 HIGH; EvDigitalWrite P2 LOW;
       EvDigitalWrite P3 LOW; EvDigitalWrite P4 LOW;
       EvDigitalWrite RGB_R LOW; EvDigitalWrite RGB_G HIGH;
       EvDigitalWrite RGB_B HIGH;
       EvLogState "ENTER" (u32 (clock w)) WORK 1 false ]).
Proof.
  intros Hp Hs Ha. enter_loop w. mrun; finish.
  all: intros Hcap; bools; try lia; finish.
Qed.

(** C7.  A press consumed in WORK, or in BREAK before the machine awaits
    the button, sends the machine to IDLE: the three channels of the state
    LED are driven to their off level (HIGH on a common-anode LED) and the
    pending-continuation flag is cleared. *)
Theorem unmatched_press_returns_to_idle (w : World) :
  pressed_in w = true ->
  currentState (fsm w) = WORK \/
  (currentState (fsm w) = BREAK /\ breakAwaitingButton (fsm w) = false) ->
  currentState (fsm (exec loop w)) = IDLE /\
  breakAwaitingButton (fsm (exec loop w)) = false /\
  emitted_by loop w =
    [ EvLogButton (u32 (clock w)) (currentState (fsm w));
      EvDigitalWrite RGB_R HIGH; EvDigitalWrite RGB_G HIGH;
      EvDigitalWrite RGB_B HIGH;
      EvLogState "ENTER" (u32 (clock w)) IDLE (pomodoroCount (fsm w)) false ].
Proof.
  intros Hp Hs. enter_loop w.
  destruct Hs as [-> | [-> ->]]; mrun; finish.
Qed.

(** C9.  A press that resets the machine to IDLE leaves every cumulative
    metric and the progress counter as they were and stages or transmits no
    telemetry: the time spent in the interrupted phase is recorded nowhere. *)
Theorem reset_press_discards_phase (w : World) :
  pressed_in w = true ->
  currentState (fsm w) = WORK \/
  (currentState (fsm w) = BREAK /\ breakAwaitingButton (fsm w) = false) ->
  metrics (exec loop w) = metrics w /\
  pomodoroCount (fsm (exec loop w)) = pomodoroCount (fsm w) /\
  filter is_telemetry (emitted_by loop w) = [].
Proof.
  intros Hp Hs. enter_loop w.
  destruct Hs as [-> | [-> ->]]; mrun; finish.
Qed.

(** ** Press handling and timers never share an iteration *)

(** C4.  An iteration of the control loop either handles a press or runs
    the time-based logic, never both, in the sketch and in its earlier
    variant.  In an iteration that consumes a press, none of the time-based
    logic runs, expired timers or not: no pulse, no telemetry, no entry into
    BREAK, no waiting flag raised, no blink toggle, no time spent, and the
    metrics the timers maintain keep their values.  In an iteration that
    consumes no press, nothing of the press handler runs: no button log, no
    entry into IDLE or WORK, no rest time recorded, and the state can only
    stay or go from WORK to BREAK. *)
Theorem press_and_timers_exclusive (w : World) :
  exclusive loop w /\ exclusive Legacy.loop w.
Proof.
  unfold exclusive. split.
  - enter_loop w.
    destruct pressed, currentState0, breakAwaitingButton0; mrun; finish.
    all: auto.
  - open_world w. unfold emitted_by, pressed_in in *.
    unfold Legacy.loop in *. mstep. call_button. subst.
    destruct pressed, currentState0, breakAwaitingButton0; mrun; finish.
    all: auto.
Qed.

(** ** Telemetry *)

(** C8.  [totalSessionTimeMs] changes in one place only: the iteration in
    which the break timer expires overwrites it with the raw clock reading
    taken after the pulse, which is the reading at which the flush is issued
    and the value staged for field 2; every other iteration leaves it as it
    was, and [setup] leaves it at 0. *)
Theorem session_time_is_raw_clock (w : World) (n : nat) (lvl : Level) :
  totalSessionTimeMs (metrics (boot n lvl)) = 0 /\
  if break_expires w then
    totalSessionTimeMs (metrics (exec loop w)) = u32 (clock w + 200) /\
    clock (exec loop w) = clock w + 200 /\
    In (EvSetFieldFloat 2 (msToSeconds (u32 (clock (exec loop w)))))
       (emitted_by loop w) /\
    filter is_telemetry (emitted_by loop w) = flush_events (metrics (exec loop w))
  else
    totalSessionTimeMs (metrics (exec loop w)) = totalSessionTimeMs (metrics w).
Proof.
  split.
  - destruct (boot_world n lvl) as (tr & -> & _). reflexivity.
  - enter_loop w.
    destruct pressed, currentState0, breakAwaitingButton0; mrun; finish.
    all: cbn [rev app In]; auto 20.
Qed.

(** C10.  Telemetry is staged and transmitted in exactly two situations,
    both without a press: when the work timer expires, and when the break
    timer expires while the machine is not yet awaiting the button; the flush
    stages the four fields and transmits once.  [setup] sends nothing.  The
    break flush raises the waiting flag, which gates it for the rest of that
    break.  An iteration that consumes a press, the resume from BREAK to
    WORK included, sends nothing; and from any state other than BREAK the
    rest time is not touched and the first later flush is a work-completion
    flush, which stages the rest time in field 4. *)
Theorem telemetry_flush_points (w : World) (n : nat) (lvl : Level)
        (inputs : list (Z * Level)) :
  filter is_telemetry (out (boot n lvl)) = [] /\
  filter is_telemetry (emitted_by loop w) =
    (if work_expires w || break_expires w
     then flush_events (metrics (exec loop w)) else []) /\
  (if break_expires w
   then currentState (fsm (exec loop w)) = BREAK /\
        breakAwaitingButton (fsm (exec loop w)) = true
   else True) /\
  (if pressed_in w
   then filter is_telemetry (emitted_by loop w) = []
   else True) /\
  (currentState (fsm w) <> BREAK ->
   forall wf, first_flush inputs w = Some wf ->
     work_expires wf = true /\
     totalRestTimeMs (metrics wf) = totalRestTimeMs (metrics w) /\
     In (EvSetFieldFloat 4 (msToSeconds (totalRestTimeMs (metrics w))))
        (emitted_by loop wf)).
Proof.
  split; [|split; [|split; [|split]]].
  - destruct (boot_world n lvl) as (tr & -> & Htr). exact Htr.
  - enter_loop w.
    destruct pressed, currentState0, breakAwaitingButton0; mrun; finish.
  - enter_loop w.
    destruct pressed, currentState0, breakAwaitingButton0; mrun; finish.
  - enter_loop w.
    destruct pressed, currentState0, breakAwaitingButton0; mrun; finish.
  - revert w. induction inputs as [|[dt l] rest IH]; intros w0 Hs wf Hf.
    + discriminate.
    + cbn [first_flush] in Hf.
      destruct (filter is_telemetry (emitted_by loop (elapse dt l w0))) eqn:Ef.
      * apply IH in Hf.
        -- destruct Hf as (Hw & Hr & Hi). split; [exact Hw|].
           assert (totalRestTimeMs (metrics (exec loop (elapse dt l w0))) =
                   totalRestTimeMs (metrics w0)) as <-.
           { clear - Hs. enter_loop w0.
             destruct pressed, currentState0, breakAwaitingButton0;
               try congruence; mrun; finish. }
           split; assumption.
        -- clear - Hs Ef. enter_loop w0.
           destruct pressed, currentState0, breakAwaitingButton0;
             try congruence; mrun; revert Ef; emit_norm;
             cbn [rev app filter is_telemetry]; intros Ef;
             first [ discriminate Ef | discriminate ].
      * inversion Hf; subst wf. clear - Hs Ef. enter_loop w0.
        destruct pressed, currentState0, breakAwaitingButton0;
          try congruence; mrun; revert Ef; emit_norm;
          cbn [rev app filter is_telemetry]; intros Ef;
          try discriminate.
        all: finish; cbn [rev app In]; auto 20.
Qed.

(** ** Invariants *)

Lemma sint_range (z : Z) : - INT_MAX - 1 <= sint z <= INT_MAX.
Proof.
  unfold sint, INT_MAX, TWO32.
  pose proof (Z.mod_pos_bound (z + 2147483648) 4294967296). lia.
Qed.

Lemma Inv_boot (n : nat) (lvl : Level) : Inv (boot n lvl).
Proof.
  destruct (boot_world n lvl) as (tr & -> & _).
  unfold Inv, INT_MAX; cbn. repeat split; try discriminate; lia.
Qed.

Lemma Inv_tick (w : World) (dt : Z) (lvl : Level) :
  Inv w -> 0 <= dt -> Inv (tick dt lvl w).
Proof.
  intros HI Hdt. unfold Inv in *. enter_loop w.
  destruct HI as (Ha & Hw & Hb & Hp & Ht & Hc).
  destruct pressed, currentState0, breakAwaitingButton0; mrun; bools;
    rewrite ?(sint_small (pomodoroCount0 + 1)) in * by lia;
    repeat split; intros; try discriminate; try reflexivity; auto;
    try apply sint_range; try lia.
Qed.

Lemma reachable_Inv (w : World) : reachable w -> Inv w.
Proof.
  induction 1 as [n lvl | w dt lvl _ IH Hdt].
  - apply Inv_boot.
  - now apply Inv_tick.
Qed.

Lemma BreakInv_tick (w : World) (dt : Z) (lvl : Level) :
  Inv w -> BreakInv w -> 0 <= dt -> clock (tick dt lvl w) < TWO32 ->
  BreakInv (tick dt lvl w).
Proof.
  intros HI HB Hdt Hc. unfold Inv, BreakInv in *. enter_loop w.
  destruct HI as (Ha & Hw & Hb & Hp & Ht & Hc0).
  destruct pressed, currentState0, breakAwaitingButton0; mrun;
    intros Hs; try discriminate.
  all: try (specialize (HB eq_refl); destruct HB as (Hps & Hl & Hn & Hiff));
    try (specialize (Hb eq_refl); subst);
    try (specialize (Hw eq_refl); subst);
    no_wrap; bools;
    cbn [lastBreakEntry pressSinceBreak is_entry is_button_log String.eqb
         Ascii.eqb Bool.eqb State_eqb andb];
    unfold BREAK_TIME in *;
    repeat split; intros; try discriminate; try reflexivity; auto; try lia.
  all: try (apply Hiff; lia).
  all: try (apply Hiff in H; lia).
Qed.

Lemma clock_tick (w : World) (dt : Z) (lvl : Level) :
  0 <= dt -> clock w <= clock (tick dt lvl w).
Proof.
  intros Hdt. enter_loop w.
  destruct pressed, currentState0, breakAwaitingButton0; mrun; lia.
Qed.

Lemma reachable_BreakInv (w : World) :
  reachable w -> clock w < TWO32 -> BreakInv w.
Proof.
  induction 1 as [n lvl | w dt lvl Hr IH Hdt]; intros Hc.
  - destruct (boot_world n lvl) as (tr & -> & _).
    unfold BreakInv; cbn. discriminate.
  - apply BreakInv_tick; auto using reachable_Inv.
    apply IH. pose proof (clock_tick w dt lvl Hdt). lia.
Qed.

(** ** Timers *)

(** C2.  In an iteration of the running sketch that consumes no press,
    with the machine in WORK and the clock at least the work duration past
    the phase start, the machine enters BREAK, exactly once; exactly one
    audible pulse is emitted; [totalPomodoroCount] grows by exactly 1;
    [totalFocusTimeMs] grows by the time elapsed since the phase start, read
    from the clock after the pulse; and the four telemetry fields are staged
    and transmitted. *)
Theorem work_expiry_completes_cycle (w0 : World) (dt : Z) (lvl : Level) :
  reachable w0 ->
  pressed_in (elapse dt lvl w0) = false ->
  currentState (fsm w0) = WORK ->
  WORK_TIME <= usub (u32 (clock w0 + dt)) (phaseStartTime (fsm w0)) ->
  totalPomodoroCount (metrics w0) < INT_MAX ->
  currentState (fsm (tick dt lvl w0)) = BREAK /\
  count (is_entry BREAK) (emitted_by loop (elapse dt lvl w0)) = 1%nat /\
  count is_pulse (emitted_by loop (elapse dt lvl w0)) = 1%nat /\
  totalPomodoroCount (metrics (tick dt lvl w0)) =
    totalPomodoroCount (metrics w0) + 1 /\
  totalFocusTimeMs (metrics (tick dt lvl w0)) =
    uadd (totalFocusTimeMs (metrics w0))
         (usub (u32 (clock w0 + dt + 200)) (phaseStartTime (fsm w0))) /\
  filter is_telemetry (emitted_by loop (elapse dt lvl w0)) =
    flush_events (metrics (tick dt lvl w0)).
Proof.
  intros Hr Hp Hs Ht Hm.
  destruct (reachable_Inv _ Hr) as (_ & Hw & _ & _ & Hrange & _).
  specialize (Hw Hs).
  enter_loop w0.
  apply Z.leb_le in Ht. rewrite Ht. mrun.
  all: rewrite (sint_small (totalPomodoroCount0 + 1))
    by (unfold INT_MAX in *; lia).
  all: finish.
Qed.

(** ** The pending-continuation flag *)

(** C3.  In every state the running sketch reaches, as long as the clock
    has not wrapped, [breakAwaitingButton] is true exactly when the machine
    is in BREAK, at least the break duration has passed since BREAK was
    entered, and no press has been consumed since; it is false in IDLE and
    in WORK; and each of the three state-entry functions clears it. *)
Theorem awaiting_flag_characterised (w : World) :
  reachable w ->
  clock w < TWO32 ->
  (breakAwaitingButton (fsm w) = true <->
   currentState (fsm w) = BREAK /\
   (exists t0, lastBreakEntry (out w) = Some t0 /\
               BREAK_TIME <= clock w - t0) /\
   pressSinceBreak (out w) = false) /\
  (currentState (fsm w) = IDLE \/ currentState (fsm w) = WORK ->
   breakAwaitingButton (fsm w) = false) /\
  (forall w0,
     breakAwaitingButton (fsm (exec enterIdle w0)) = false /\
     breakAwaitingButton (fsm (exec enterWork w0)) = false /\
     breakAwaitingButton (fsm (exec enterBreak w0)) = false).
Proof.
  intros Hr Hc.
  pose proof (reachable_Inv _ Hr) as (Ha & _).
  pose proof (reachable_BreakInv _ Hr Hc) as HB. unfold BreakInv in HB.
  split; [|split].
  - split.
    + intros Hf. specialize (Ha Hf). destruct (HB Ha) as (_ & Hl & Hn & Hiff).
      split; [exact Ha|]. split; [|exact Hn].
      exists (phaseStartTime (fsm w)). split; [exact Hl|]. now apply Hiff.
    + intros (Hs & (t0 & Hl & Ht) & _).
      destruct (HB Hs) as (_ & Hl' & _ & Hiff).
      rewrite Hl' in Hl. inversion Hl; subst t0. now apply Hiff.
  - intros Hs. destruct (breakAwaitingButton (fsm w)) eqn:Hf; [|reflexivity].
    specialize (Ha eq_refl). destruct Hs as [Hs | Hs]; congruence.
  - intros w1. open_world w1. mstep.
    repeat split; mrun; reflexivity.
Qed.

(** ** The debounced edge detector *)

Ltac open_poll w :=
  open_world w; unfold poll, buttonPressed in *; mstep.

(** A reported press: the level is low, it was not yet accepted, the
    cool-down has passed, and the press is stamped with the clock reading. *)
Lemma poll_true (t : Z) (lvl : Level) (w : World) :
  fst (poll t lvl w) = true ->
  lvl = LOW /\
  stableState (button w) = HIGH /\
  COOLDOWN_MS <= usub (u32 t) (lastEvent (button w)) /\
  lastEvent (button (snd (poll t lvl w))) = u32 t /\
  stableState (button (snd (poll t lvl w))) = LOW.
Proof.
  intros H. open_poll w.
  destruct lvl, lastReading0, stableState0; mrun; bools;
    try discriminate; repeat split; auto.
Qed.

Lemma poll_false (t : Z) (lvl : Level) (w : World) :
  fst (poll t lvl w) = false ->
  lastEvent (button (snd (poll t lvl w))) = lastEvent (button w).
Proof.
  intros H. open_poll w.
  destruct lvl, lastReading0, stableState0; mrun;
    try discriminate; reflexivity.
Qed.

(** Once the low level is accepted, a low reading changes nothing. *)
Lemma poll_accepted_low (t : Z) (w : World) :
  stableState (button w) = LOW ->
  fst (poll t LOW w) = false /\
  stableState (button (snd (poll t LOW w))) = LOW.
Proof.
  intros H. open_poll w. subst.
  destruct lastReading0; mrun; split; reflexivity.
Qed.

(** The call that accepts the low level reports a press exactly when the
    cool-down has passed. *)
Lemma poll_commit (t : Z) (w : World) :
  stableState (button w) = HIGH ->
  stableState (button (snd (poll t LOW w))) = LOW ->
  fst (poll t LOW w) = (COOLDOWN_MS <=? usub (u32 t) (lastEvent (button w))).
Proof.
  intros H1 H2. open_poll w. subst.
  destruct lastReading0; mrun; try discriminate; reflexivity.
Qed.

Lemma polls_accepted_low (calls : list (Z * Level)) (w : World) :
  held_low calls ->
  stableState (button w) = LOW ->
  count_true (fst (polls calls w)) = 0%nat /\
  stableState (button (snd (polls calls w))) = LOW.
Proof.
  revert w. induction calls as [|[t lvl] rest IH]; intros w Hh Hs.
  - split; [reflexivity | exact Hs].
  - inversion Hh as [|c cs Hl Hrest]; subst. cbn [snd] in Hl. subst lvl.
    destruct (poll_accepted_low t w Hs) as (Hf & Hs').
    cbn [polls]. destruct (poll t LOW w) as [p w1]. cbn [fst snd] in *.
    subst p. specialize (IH w1 Hrest Hs').
    destruct (polls rest w1) as [ps w2]. cbn [fst snd] in *.
    exact IH.
Qed.

Lemma polls_held_low (calls : list (Z * Level)) (w : World) :
  held_low calls -> (count_true (fst (polls calls w)) <= 1)%nat.
Proof.
  revert w. induction calls as [|[t lvl] rest IH]; intros w Hh.
  - cbn. lia.
  - inversion Hh as [|c cs Hl Hrest]; subst. cbn [snd] in Hl. subst lvl.
    cbn [polls]. destruct (poll t LOW w) as [p w1] eqn:Ep.
    destruct p.
    + pose proof (poll_true t LOW w) as Ht. rewrite Ep in Ht.
      destruct (Ht eq_refl) as (_ & _ & _ & _ & Hs). cbn [snd] in Hs.
      destruct (polls_accepted_low rest w1 Hrest Hs) as (Hz & _).
      destruct (polls rest w1) as [ps w2]. cbn [fst] in *.
      unfold count_true in *. cbn [filter List.length]. lia.
    + specialize (IH w1 Hrest).
      destruct (polls rest w1) as [ps w2]. cbn [fst] in *.
      unfold count_true in *. cbn [filter]. exact IH.
Qed.

Lemma press_times_spaced (calls : list (Z * Level)) (w : World) :
  0 <= lastEvent (button w) ->
  timestamps_from (lastEvent (button w)) calls ->
  Forall (fun e => lastEvent (button w) + COOLDOWN_MS <= e)
         (press_times calls w) /\
  ForallOrdPairs (fun a b => COOLDOWN_MS <= b - a) (press_times calls w).
Proof.
  revert w. induction calls as [|[t lvl] rest IH]; intros w H0 Hts.
  - split; constructor.
  - cbn [timestamps_from] in Hts. destruct Hts as (Ht & Hrest).
    cbn [press_times]. destruct (poll t lvl w) as [p w1] eqn:Ep.
    destruct p.
    + pose proof (poll_true t lvl w) as Hp. rewrite Ep in Hp.
      destruct (Hp eq_refl) as (_ & _ & Hcd & Hle & _). cbn [snd] in Hle.
      unfold usub in Hcd. rewrite (u32_small t) in Hcd, Hle by lia.
      rewrite u32_small in Hcd by lia.
      destruct (IH w1) as (IH1 & IH2).
      * rewrite Hle. lia.
      * rewrite Hle. exact Hrest.
      * rewrite Hle in IH1. split.
        -- constructor; [lia|].
           eapply Forall_impl; [|exact IH1]. cbn. intros; lia.
        -- constructor; [|exact IH2].
           eapply Forall_impl; [|exact IH1]. cbn. intros; lia.
    + pose proof (poll_false t lvl w) as Hp. rewrite Ep in Hp.
      specialize (Hp eq_refl). cbn [snd] in Hp.
      assert (Hrest' : timestamps_from (lastEvent (button w)) rest).
      { clear - Ht Hrest. destruct rest as [|[t' l'] r]; [exact I|].
        cbn [timestamps_from] in *. intuition lia. }
      destruct (IH w1) as (IH1 & IH2).
      * rewrite Hp. exact H0.
      * rewrite Hp. exact Hrest'.
      * rewrite Hp in IH1. split; assumption.
Qed.

(** C5, as amended.  Reported presses are never closer than the cool-down:
    when the timestamps fit the clock, never go back and do not precede the
    last reported press, any two presses the detector reports are at least
    [COOLDOWN_MS] apart, so no window shorter than that holds two.  A level
    held low never yields a stream: the whole hold reports at most one
    press, and none once the low level has been accepted.  The call that
    accepts the low level reports the press exactly when the cool-down since
    the last reported press has passed; then the hold yields exactly one
    press, and otherwise it yields none. *)
Theorem debounce_guarantees (calls : list (Z * Level)) (w : World) :
  (0 <= lastEvent (button w) ->
   timestamps_from (lastEvent (button w)) calls ->
   ForallOrdPairs (fun a b => COOLDOWN_MS <= b - a) (press_times calls w)) /\
  (held_low calls ->
   (count_true (fst (polls calls w)) <= 1)%nat /\
   (stableState (button w) = LOW ->
    count_true (fst (polls calls w)) = 0%nat) /\
   (forall t, fst (poll t LOW w) = true ->
              count_true (fst (polls ((t, LOW) :: calls) w)) = 1%nat) /\
   (forall t, stableState (button w) = HIGH ->
              stableState (button (snd (poll t LOW w))) = LOW ->
              fst (poll t LOW w) = false ->
              count_true (fst (polls ((t, LOW) :: calls) w)) = 0%nat)) /\
  (forall t, stableState (button w) = HIGH ->
             stableState (button (snd (poll t LOW w))) = LOW ->
             fst (poll t LOW w) =
               (COOLDOWN_MS <=? usub (u32 t) (lastEvent (button w)))).
Proof.
  split; [|split].
  - intros H0 Hts. now apply press_times_spaced.
  - intros Hh. split; [now apply polls_held_low|]. split; [|split].
    + intros Hs. now apply polls_accepted_low.
    + intros t Hp. cbn [polls].
      pose proof (poll_true t LOW w Hp) as (_ & _ & _ & _ & Hs).
      destruct (poll t LOW w) as [p w1]. cbn [fst snd] in *. subst p.
      destruct (polls_accepted_low calls w1 Hh Hs) as (Hz & _).
      destruct (polls calls w1) as [ps w2]. cbn [fst] in *.
      unfold count_true in *. cbn [filter List.length]. now rewrite Hz.
    + intros t _ Hs Hp. cbn [polls].
      destruct (poll t LOW w) as [p w1]. cbn [fst snd] in *. subst p.
      destruct (polls_accepted_low calls w1 Hh Hs) as (Hz & _).
      destruct (polls calls w1) as [ps w2]. cbn [fst] in *.
      unfold count_true in *. cbn [filter]. exact Hz.
  - intros t. apply poll_commit.
Qed.

(** ** Counterexamples *)

(** C1 as the specification states it fails: after a press consumed in IDLE
    the progress counter is 1, not 0. *)
Lemma press_in_idle_progress_not_zero :
  pressed_in idle_press = true /\
  currentState (fsm idle_press) = IDLE /\
  currentState (fsm (exec loop idle_press)) = WORK /\
  pomodoroCount (fsm (exec loop idle_press)) <> 0.
Proof.
  vm_compute. repeat split; discriminate.
Qed.

(** C6 as the specification states it fails: resuming with the progress
    counter at the cap of 4 leaves it at 1, not 0. *)
Lemma resume_at_cap_progress_not_zero :
  pressed_in resume_at_cap = true /\
  currentState (fsm resume_at_cap) = BREAK /\
  breakAwaitingButton (fsm resume_at_cap) = true /\
  pomodoroCount (fsm resume_at_cap) = 4 /\
  currentState (fsm (exec loop resume_at_cap)) = WORK /\
  pomodoroCount (fsm (exec loop resume_at_cap)) <> 0.
Proof.
  vm_compute. repeat split; discriminate.
Qed.

(** C5 as the specification states it fails: a second press that starts
    50 ms after a reported press and is then held for a minute is accepted
    once (the stable level goes from high to low) and yields no press event
    at all. *)
Lemma held_press_in_cooldown_is_lost :
  fst (polls first_press (power_on HIGH)) = [false; true; false; false] /\
  timestamps_from 0 (first_press ++ second_hold) /\
  held_low second_hold /\
  stableState (button after_first_press) = HIGH /\
  stableState (button (snd (polls second_hold after_first_press))) = LOW /\
  count_true (fst (polls second_hold after_first_press)) <> 1%nat.
Proof.
  repeat split; try (vm_compute; congruence).
  unfold held_low, second_hold. repeat constructor.
Qed.

(** In the earlier sketch, where [enterWork] does not touch the counter, the
    same press leaves the progress counter at 0. *)
Lemma legacy_press_in_idle_keeps_zero (w : World) :
  pressed_in w = true ->
  currentState (fsm w) = IDLE ->
  currentState (fsm (exec Legacy.loop w)) = WORK /\
  pomodoroCount (fsm (exec Legacy.loop w)) = 0.
Proof.
  intros Hp Hs. open_world w. unfold pressed_in in *.
  unfold Legacy.loop. mstep. call_button. subst. mrun. finish.
Qed.

(** ** The theorems at concrete inputs *)

Lemma reachable_run (inputs : list (Z * Level)) (w : World) :
  Forall (fun i => 0 <= fst i) inputs -> reachable w ->
  reachable (run inputs w).
Proof.
  revert w. induction inputs as [|[dt lvl] rest IH]; intros w Hin Hr.
  - exact Hr.
  - inversion Hin as [|i rest0 Hdt Hrest]; subst. cbn [run].
    apply IH; [exact Hrest|]. now apply reach_tick.
Qed.

Lemma press_in_idle_starts_work_witness :
  pressed_in idle_press = true /\
  currentState (fsm idle_press) = IDLE /\
  pomodoroCount (fsm (exec loop idle_press)) = 1.
Proof.
  assert (Hp : pressed_in idle_press = true) by (vm_compute; reflexivity).
  assert (Hs : currentState (fsm idle_press) = IDLE)
    by (vm_compute; reflexivity).
  split; [exact Hp | split; [exact Hs |]].
  exact (proj1 (proj2 (press_in_idle_starts_work idle_press Hp Hs))).
Defined.

Lemma work_expiry_completes_cycle_witness :
  reachable working /\
  totalPomodoroCount (metrics (tick 10000 HIGH working)) =
    totalPomodoroCount (metrics working) + 1.
Proof.
  assert (Hr : reachable working).
  { apply reachable_run; [|apply reach_boot].
    unfold press. repeat constructor; cbn; lia. }
  split; [exact Hr|].
  apply (work_expiry_completes_cycle working 10000 HIGH Hr);
    vm_compute; congruence.
Defined.

Lemma awaiting_flag_characterised_witness :
  reachable awaiting /\ clock awaiting < TWO32 /\
  (breakAwaitingButton (fsm awaiting) = true <->
   currentState (fsm awaiting) = BREAK /\
   (exists t0, lastBreakEntry (out awaiting) = Some t0 /\
               BREAK_TIME <= clock awaiting - t0) /\
   pressSinceBreak (out awaiting) = false).
Proof.
  assert (Hr : reachable awaiting).
  { apply reachable_run; [|apply reach_boot].
    unfold cycle, press. repeat constructor; cbn; lia. }
  assert (Hc : clock awaiting < TWO32) by (vm_compute; reflexivity).
  split; [exact Hr | split; [exact Hc |]].
  exact (proj1 (awaiting_flag_characterised awaiting Hr Hc)).
Defined.

Lemma debounce_guarantees_witness :
  ForallOrdPairs (fun a b => COOLDOWN_MS <= b - a)
                 (press_times (first_press ++ second_hold) (power_on HIGH)) /\
  (count_true (fst (polls second_hold after_first_press)) <= 1)%nat.
Proof.
  split.
  - apply (proj1 (debounce_guarantees (first_press ++ second_hold)
                                      (power_on HIGH))).
    + vm_compute; congruence.
    + vm_compute. intuition congruence.
  - apply (proj1 (proj2 (debounce_guarantees second_hold after_first_press))).
    unfold held_low, second_hold. repeat constructor.
Defined.

Lemma resume_press_records_rest_witness :
  pressed_in resume_at_cap = true /\
  currentState (fsm resume_at_cap) = BREAK /\
  breakAwaitingButton (fsm resume_at_cap) = true /\
  currentState (fsm (exec loop resume_at_cap)) = WORK.
Proof.
  assert (Hp : pressed_in resume_at_cap = true) by (vm_compute; reflexivity).
  assert (Hs : currentState (fsm resume_at_cap) = BREAK)
    by (vm_compute; reflexivity).
  assert (Ha : breakAwaitingButton (fsm resume_at_cap) = true)
    by (vm_compute; reflexivity).
  split; [exact Hp | split; [exact Hs | split; [exact Ha |]]].
  exact (proj1 (resume_press_records_rest resume_at_cap Hp Hs Ha)).
Defined.

Lemma unmatched_press_returns_to_idle_witness :
  pressed_in work_press = true /\
  currentState (fsm work_press) = WORK /\
  currentState (fsm (exec loop work_press)) = IDLE.
Proof.
  assert (Hp : pressed_in work_press = true) by (vm_compute; reflexivity).
  assert (Hs : currentState (fsm work_press) = WORK)
    by (vm_compute; reflexivity).
  split; [exact Hp | split; [exact Hs |]].
  exact (proj1 (unmatched_press_returns_to_idle work_press Hp (or_introl Hs))).
Defined.

Lemma reset_press_discards_phase_witness :
  pressed_in work_press = true /\
  currentState (fsm work_press) = WORK /\
  metrics (exec loop work_press) = metrics work_press.
Proof.
  assert (Hp : pressed_in work_press = true) by (vm_compute; reflexivity).
  assert (Hs : currentState (fsm work_press) = WORK)
    by (vm_compute; reflexivity).
  split; [exact Hp | split; [exact Hs |]].
  exact (proj1 (reset_press_discards_phase work_press Hp (or_introl Hs))).
Defined.

Lemma telemetry_flush_points_witness :
  currentState (fsm resumed) <> BREAK /\
  exists wf,
    first_flush [(5000, HIGH); (6000, HIGH)] resumed = Some wf /\
    work_expires wf = true /\
    totalRestTimeMs (metrics wf) = totalRestTimeMs (metrics resumed).
Proof.
  assert (Hs : currentState (fsm resumed) <> BREAK)
    by (vm_compute; discriminate).
  split; [exact Hs|].
  destruct (first_flush [(5000, HIGH); (6000, HIGH)] resumed) as [wf|] eqn:Ef;
    [|vm_compute in Ef; discriminate].
  exists wf. split; [reflexivity|].
  pose proof (telemetry_flush_points resumed 0 HIGH
                                      [(5000, HIGH); (6000, HIGH)]) as T.
  destruct T as (_ & _ & _ & _ & T).
  specialize (T Hs). specialize (T wf). specialize (T Ef).
  destruct T as (Hw & Hr & _).
  split; [exact Hw | exact Hr].
Defined.

(** * Further properties of the sketch *)

(** ** The progress LEDs *)

(** X1.  [updateProgressLEDs] writes the four progress pins, in order, and
    changes nothing else; LED k is lit exactly when the counter is at least
    k, so the LEDs form a bar whose length is the counter clamped to 0..4. *)
Theorem progress_leds_form_a_bar (w : World) :
  metrics (exec updateProgressLEDs w) = metrics w /\
  fsm (exec updateProgressLEDs w) = fsm w /\
  button (exec updateProgressLEDs w) = button w /\
  clock (exec updateProgressLEDs w) = clock w /\
  emitted_by updateProgressLEDs w =
    [ EvDigitalWrite P1 (if 1 <=? pomodoroCount (fsm w) then HIGH else LOW);
      EvDigitalWrite P2 (if 2 <=? pomodoroCount (fsm w) then HIGH else LOW);
      EvDigitalWrite P3 (if 3 <=? pomodoroCount (fsm w) then HIGH else LOW);
      EvDigitalWrite P4 (if 4 <=? pomodoroCount (fsm w) then HIGH else LOW) ] /\
  count is_lit (emitted_by updateProgressLEDs w) =
    Z.to_nat (Z.max 0 (Z.min 4 (pomodoroCount (fsm w)))).
Proof.
  open_world w. unfold emitted_by. mstep. emit_norm.
  repeat split.
  cbn [rev app].
  destruct (1 <=? pomodoroCount0) eqn:C1, (2 <=? pomodoroCount0) eqn:C2,
           (3 <=? pomodoroCount0) eqn:C3, (4 <=? pomodoroCount0) eqn:C4;
    bools; try lia; cbn; lia.
Qed.

(** ** One iteration of the loop *)

(** X2.  An iteration blocks for the 200 ms pulse exactly when a phase
    timer expires, and otherwise takes no time: the delay before the next
    button poll is bounded by one pulse. *)
Theorem loop_blocks_for_one_pulse_at_most (w : World) :
  clock (exec loop w) =
    clock w + (if work_expires w || break_expires w then 200 else 0) /\
  count is_pulse (emitted_by loop w) =
    (if work_expires w || break_expires w then 1%nat else 0%nat).
Proof.
  enter_loop w.
  destruct pressed, currentState0, breakAwaitingButton0; mrun; finish;
    lia.
Qed.

(** X3.  An iteration with no press, no timer expiry and no blink due does
    nothing beyond the button poll: no event, no change to the machine, the
    metrics or the clock. *)
Theorem quiet_iteration_only_polls (w : World) :
  pressed_in w = false ->
  work_expires w = false ->
  break_expires w = false ->
  blink_due w = false ->
  exec loop w = exec buttonPressed w.
Proof.
  intros Hp Hw Hb Hd. unfold blink_due in *. enter_loop w.
  destruct currentState0, breakAwaitingButton0; mrun;
    try congruence; reflexivity.
Qed.

(** X4.  The state machine follows its transition table, in the sketch
    and in its earlier variant: the next state and the next waiting flag are
    functions of whether a press was consumed, the state, the flag and the
    expiry of the phase timer.  In particular BREAK is entered from WORK
    only, and only by the timer. *)
Theorem loop_follows_transition_table (w : World) :
  currentState (fsm (exec loop w)) =
    next_state (pressed_in w) (currentState (fsm w))
               (breakAwaitingButton (fsm w)) (timer_expired w) /\
  breakAwaitingButton (fsm (exec loop w)) =
    next_awaiting (pressed_in w) (currentState (fsm w))
                  (breakAwaitingButton (fsm w)) (timer_expired w) /\
  currentState (fsm (exec Legacy.loop w)) =
    next_state (pressed_in w) (currentState (fsm w))
               (breakAwaitingButton (fsm w)) (timer_expired w) /\
  breakAwaitingButton (fsm (exec Legacy.loop w)) =
    next_awaiting (pressed_in w) (currentState (fsm w))
                  (breakAwaitingButton (fsm w)) (timer_expired w).
Proof.
  unfold timer_expired. split; [|split; [|split]].
  1, 2: enter_loop w;
    destruct pressed, currentState0, breakAwaitingButton0; mrun;
    try congruence; reflexivity.
  all: open_world w; unfold pressed_in in *; unfold Legacy.loop in *;
    mstep; call_button; subst;
    destruct pressed, currentState0, breakAwaitingButton0; mrun;
    try congruence; reflexivity.
Qed.

(** X5.  While the machine awaits the button and no press is consumed, the
    iteration toggles the waiting animation exactly when the last toggle is
    at least 400 ms old: the blink flag flips, the toggle time becomes the
    clock reading at the start of the iteration, and the blue channel is
    driven to match (red and green stay off); otherwise it emits nothing.
    State, flag, metrics and clock are not touched. *)
Theorem awaiting_iteration_blinks (w : World) :
  pressed_in w = false ->
  currentState (fsm w) = BREAK ->
  breakAwaitingButton (fsm w) = true ->
  waitBlinkOn (fsm (exec loop w)) =
    (if blink_due w then negb (waitBlinkOn (fsm w)) else waitBlinkOn (fsm w)) /\
  waitBlinkLast (fsm (exec loop w)) =
    (if blink_due w then u32 (clock w) else waitBlinkLast (fsm w)) /\
  emitted_by loop w =
    (if blink_due w
     then [ EvDigitalWrite RGB_R HIGH; EvDigitalWrite RGB_G HIGH;
            EvDigitalWrite RGB_B (if waitBlinkOn (fsm w) then HIGH else LOW) ]
     else []) /\
  currentState (fsm (exec loop w)) = BREAK /\
  breakAwaitingButton (fsm (exec loop w)) = true /\
  metrics (exec loop w) = metrics w /\
  clock (exec loop w) = clock w.
Proof.
  intros Hp Hs Ha. unfold blink_due in *. enter_loop w.
  mrun; destruct waitBlinkOn0; mrun; finish.
Qed.

(** ** The edge detector, call by call *)

(** X6.  A call of [buttonPressed] reports a press exactly when the level
    read is low, the accepted level is still high, the previous call read
    low as well, the raw level has not changed for at least 30 ms, and the
    last reported press is at least 250 ms old.  A high reading, or the
    first low reading after a high one, never reports. *)
Theorem press_reported_iff (t : Z) (lvl : Level) (w : World) :
  fst (poll t lvl w) =
    Level_eqb lvl LOW
    && Level_eqb (stableState (button w)) HIGH
    && Level_eqb (lastReading (button w)) LOW
    && (DEBOUNCE_MS <=? usub (u32 t) (lastChange (button w)))
    && (COOLDOWN_MS <=? usub (u32 t) (lastEvent (button w))).
Proof.
  open_poll w.
  assert (Hz : (DEBOUNCE_MS <=? usub (u32 t) (u32 t)) = false).
  { unfold usub. rewrite Z.sub_diag. reflexivity. }
  destruct lvl, lastReading0, stableState0; mrun;
    rewrite ?Hz in *; try congruence; reflexivity.
Qed.

(** X7.  How a call moves the statics of the detector: the raw reading is
    always recorded; the change time is reset to the clock reading when the
    reading differs from the previous one; the accepted level follows the
    reading once it has been the same for 30 ms, so a change seen for the
    first time never alters it; and the event time moves only when a press
    is reported.  Nothing outside the statics changes. *)
Theorem detector_step (t : Z) (lvl : Level) (w : World) :
  lastReading (button (snd (poll t lvl w))) = lvl /\
  lastChange (button (snd (poll t lvl w))) =
    (if Level_eqb lvl (lastReading (button w))
     then lastChange (button w) else u32 t) /\
  stableState (button (snd (poll t lvl w))) =
    (if Level_eqb lvl (lastReading (button w))
        && (DEBOUNCE_MS <=? usub (u32 t) (lastChange (button w)))
     then lvl else stableState (button w)) /\
  lastEvent (button (snd (poll t lvl w))) =
    (if fst (poll t lvl w) then u32 t else lastEvent (button w)) /\
  metrics (snd (poll t lvl w)) = metrics w /\
  fsm (snd (poll t lvl w)) = fsm w /\
  out (snd (poll t lvl w)) = out w.
Proof.
  open_poll w.
  assert (Hz : (DEBOUNCE_MS <=? usub (u32 t) (u32 t)) = false).
  { unfold usub. rewrite Z.sub_diag. reflexivity. }
  destruct lvl, lastReading0, stableState0; mrun;
    rewrite ?Hz in *; try congruence; repeat split; reflexivity.
Qed.

(** ** The earlier sketch *)

(** X8.  In the earlier sketch the progress counter counts completed work
    phases: when the work timer expires without a press the counter grows
    by one and saturates at 4, the machine enters BREAK after one pulse, and
    no telemetry is involved. *)
Theorem legacy_work_expiry_counts_up (w : World) :
  pressed_in w = false ->
  currentState (fsm w) = WORK ->
  timer_expired w = true ->
  - INT_MAX - 1 <= pomodoroCount (fsm w) < INT_MAX ->
  currentState (fsm (exec Legacy.loop w)) = BREAK /\
  pomodoroCount (fsm (exec Legacy.loop w)) =
    Z.min 4 (pomodoroCount (fsm w) + 1) /\
  breakAwaitingButton (fsm (exec Legacy.loop w)) = false /\
  phaseStartTime (fsm (exec Legacy.loop w)) = u32 (clock w + 200) /\
  phaseDuration (fsm (exec Legacy.loop w)) = Legacy.BREAK_TIME /\
  count is_pulse (emitted_by Legacy.loop w) = 1%nat /\
  filter is_telemetry (emitted_by Legacy.loop w) = [] /\
  metrics (exec Legacy.loop w) = metrics w.
Proof.
  intros Hp Hs He Hr. unfold timer_expired, emitted_by, INT_MAX in *.
  open_world w. unfold pressed_in in *. unfold Legacy.loop in *.
  mstep. call_button. subst. mrun; bools;
    rewrite ?(sint_small (pomodoroCount0 + 1)) in * by lia;
    finish; lia.
Qed.

(** X9.  From the same world, one iteration of the sketch and one of the
    earlier sketch agree on everything the state machine and the detector
    own except the phase length and the progress counter: state, waiting
    flag, phase start, blink variables, detector statics and clock. *)
Theorem sketch_and_legacy_agree (w : World) :
  currentState (fsm (exec loop w)) = currentState (fsm (exec Legacy.loop w)) /\
  breakAwaitingButton (fsm (exec loop w)) =
    breakAwaitingButton (fsm (exec Legacy.loop w)) /\
  phaseStartTime (fsm (exec loop w)) =
    phaseStartTime (fsm (exec Legacy.loop w)) /\
  waitBlinkLast (fsm (exec loop w)) = waitBlinkLast (fsm (exec Legacy.loop w)) /\
  waitBlinkOn (fsm (exec loop w)) = waitBlinkOn (fsm (exec Legacy.loop w)) /\
  button (exec loop w) = button (exec Legacy.loop w) /\
  clock (exec loop w) = clock (exec Legacy.loop w).
Proof.
  open_world w. unfold loop, Legacy.loop. mstep. call_button. subst.
  destruct pressed, currentState0, breakAwaitingButton0; mrun;
    try congruence; repeat split; reflexivity.
Qed.

(** ** Setup *)

Lemma boot_explicit (n : nat) (lvl : Level) :
  boot n lvl =
  mkWorld (mkMetrics 0 0 0 0) (mkFsm IDLE 0 0 0 false 0 false)
          (mkButton HIGH HIGH 0 0) (Z.of_nat n * 500 + 300) lvl
          (rev (setup_tail (u32 (Z.of_nat n * 500 + 300)))
           ++ repeat (EvDelay 500) n ++ [EvWiFiBegin]).
Proof.
  unfold boot, setup, exec.
  set (wait := repeatM n (delay 500)).
  cbv [bind emit power_on metrics fsm button clock btnLevel out].
  subst wait. rewrite repeat_delay. mstep. reflexivity.
Qed.

(** X10.  [setup] blocks for 300 ms plus 500 ms per failed connection
    check, configures the eight output pins and the pulled-up button input
    before it drives any pin, switches every indicator off, and leaves the
    machine in IDLE with zeroed counters and the detector at rest, whatever
    the level of the button. *)
Theorem setup_initialises (n : nat) (lvl : Level) :
  clock (boot n lvl) = Z.of_nat n * 500 + 300 /\
  metrics (boot n lvl) = mkMetrics 0 0 0 0 /\
  fsm (boot n lvl) = mkFsm IDLE 0 0 0 false 0 false /\
  button (boot n lvl) = mkButton HIGH HIGH 0 0 /\
  rev (out (boot n lvl)) =
    EvWiFiBegin :: repeat (EvDelay 500) n
    ++ setup_tail (u32 (Z.of_nat n * 500 + 300)).
Proof.
  rewrite boot_explicit. cbn [clock metrics fsm button out].
  repeat split.
  rewrite !rev_app_distr, rev_involutive, rev_repeat. reflexivity.
Qed.

(** ** What the indicators show *)

Ltac pins :=
  cbn [pin_level forallb write_ok existsb output_pins rev app setup_tail
       P1 P2 P3 P4 RGB_R RGB_G RGB_B BUZZ BTN Z.eqb Pos.eqb
       andb orb negb Level_eqb] in *.

Lemma pin_level_skip_delays (pin : Z) (ms : Z) (n : nat) (l : list Event) :
  pin_level pin (repeat (EvDelay ms) n ++ l) = pin_level pin l.
Proof.
  induction n as [|k IH]; cbn [repeat app pin_level]; auto.
Qed.

Lemma write_ok_delays (ms : Z) (n : nat) (l : list Event) :
  forallb write_ok (repeat (EvDelay ms) n ++ l) = forallb write_ok l.
Proof.
  induction n as [|k IH]; cbn [repeat app forallb write_ok andb]; auto.
Qed.

Lemma Shown_boot (n : nat) (lvl : Level) : Shown (boot n lvl).
Proof.
  rewrite boot_explicit. unfold Shown.
  cbn [out fsm currentState pomodoroCount waitBlinkOn]. pins.
  rewrite write_ok_delays, ?pin_level_skip_delays. pins.
  repeat split; auto.
Qed.

Lemma Shown_tick (w : World) (dt : Z) (lvl : Level) :
  Shown w -> Shown (tick dt lvl w).
Proof.
  intros HS. unfold Shown in *. enter_loop w.
  destruct HS as (H1 & H2 & H3 & H4 & HR & HG & HB & HZ & HW).
  destruct pressed, currentState0, breakAwaitingButton0; mrun; pins;
    try (destruct waitBlinkOn0; pins);
    repeat split; auto.
Qed.

Lemma reachable_Shown (w : World) : reachable w -> Shown w.
Proof.
  induction 1 as [n lvl | w dt lvl _ IH _].
  - apply Shown_boot.
  - now apply Shown_tick.
Qed.

(** X11.  In every state the sketch reaches, the progress LEDs show the
    progress counter: the level last written to LED k is high exactly when
    the counter is at least k. *)
Theorem progress_leds_show_counter (w : World) :
  reachable w ->
  pin_level P1 (out w) =
    Some (if 1 <=? pomodoroCount (fsm w) then HIGH else LOW) /\
  pin_level P2 (out w) =
    Some (if 2 <=? pomodoroCount (fsm w) then HIGH else LOW) /\
  pin_level P3 (out w) =
    Some (if 3 <=? pomodoroCount (fsm w) then HIGH else LOW) /\
  pin_level P4 (out w) =
    Some (if 4 <=? pomodoroCount (fsm w) then HIGH else LOW).
Proof.
  intros Hr. destruct (reachable_Shown w Hr) as (H1 & H2 & H3 & H4 & _).
  repeat split; assumption.
Qed.

(** X12.  In every state the sketch reaches, the state LED shows the
    state: all channels off in IDLE, red on in WORK, and in BREAK blue on or
    off as the blink flag says; the green channel is off throughout. *)
Theorem state_led_shows_state (w : World) :
  reachable w ->
  pin_level RGB_R (out w) =
    Some (match currentState (fsm w) with WORK => LOW | _ => HIGH end) /\
  pin_level RGB_G (out w) = Some HIGH /\
  pin_level RGB_B (out w) =
    Some (match currentState (fsm w) with
          | BREAK => if waitBlinkOn (fsm w) then LOW else HIGH
          | _ => HIGH
          end).
Proof.
  intros Hr.
  destruct (reachable_Shown w Hr) as (_ & _ & _ & _ & HR & HG & HB & _).
  repeat split; assumption.
Qed.

(** X13.  The sketch drives nothing but the eight pins it configured as
    outputs, never switches the green channel on, and leaves the buzzer
    silent whenever an iteration returns. *)
Theorem writes_respect_wiring (w : World) :
  reachable w ->
  forallb write_ok (out w) = true /\
  pin_level BTN (out w) = None /\
  (pin_level BUZZ (out w) = None \/ pin_level BUZZ (out w) = Some LOW).
Proof.
  intros Hr.
  destruct (reachable_Shown w Hr) as (_ & _ & _ & _ & _ & _ & _ & HZ & HW).
  split; [exact HW|]. split; [|exact HZ].
  clear HZ Hr. induction (out w) as [|e tr IH]; [reflexivity|].
  cbn [forallb] in HW. apply andb_prop in HW. destruct HW as (He & Ht).
  destruct e; cbn [pin_level]; auto.
  destruct (pin =? BTN) eqn:E; auto.
  apply Z.eqb_eq in E. subst pin. discriminate He.
Qed.

(** ** Counter, blink variables and detector in the running sketch *)

Lemma filter_skip_delays (p : Event -> bool) (ms : Z) (n : nat)
      (l : list Event) :
  p (EvDelay ms) = false ->
  filter p (repeat (EvDelay ms) n ++ l) = filter p l.
Proof.
  intros Hp.
  induction n as [|k IH]; cbn [repeat app filter]; [reflexivity|].
  now rewrite Hp.
Qed.

Lemma Steady_boot (n : nat) (lvl : Level) : Steady (boot n lvl).
Proof.
  rewrite boot_explicit. unfold Steady.
  cbn [out fsm button clock currentState pomodoroCount lastEvent].
  repeat split; try congruence; try discriminate; lia.
Qed.

Lemma Steady_tick (w : World) (dt : Z) (lvl : Level) :
  Inv w -> Steady w -> 0 <= dt -> Steady (tick dt lvl w).
Proof.
  intros HI HS Hdt.
  assert (HE : pressed_in (elapse dt lvl w) = false ->
               lastEvent (button (exec buttonPressed (elapse dt lvl w))) =
               lastEvent (button w)).
  { apply (poll_false (clock w + dt) lvl w). }
  unfold Inv, Steady, count in *. enter_loop w.
  destruct HI as (Ha & Hw & Hb & Hp & Ht & Hc).
  destruct HS as (S1 & S2 & S3 & S4).
  destruct pressed, currentState0, breakAwaitingButton0; mrun; bools;
    rewrite ?(sint_small (pomodoroCount0 + 1)) in * by lia;
    cbn [filter is_button_log List.length] in *;
    repeat split; intros; try discriminate; try congruence; auto; try lia.
  all: try (specialize (S1 ltac:(discriminate)); lia).
  all: try (rewrite HE by reflexivity; auto).
  all: try (destruct (S2 eq_refl eq_refl); congruence).
Qed.

Lemma reachable_Steady (w : World) : reachable w -> Steady w.
Proof.
  induction 1 as [n lvl | w dt lvl Hr IH Hdt].
  - apply Steady_boot.
  - apply Steady_tick; auto using reachable_Inv.
Qed.

Lemma Accounted_boot (n : nat) (lvl : Level) : Accounted (boot n lvl).
Proof.
  rewrite boot_explicit. unfold Accounted, phase_floor.
  cbn [out fsm metrics clock currentState totalFocusTimeMs totalRestTimeMs
       totalPomodoroCount totalSessionTimeMs].
  unfold count.
  cbn [rev app setup_tail filter is_entry String.eqb Ascii.eqb Bool.eqb
       State_eqb andb].
  rewrite (filter_skip_delays _ 500 n) by reflexivity.
  cbn [filter is_entry List.length].
  repeat split; try reflexivity; lia.
Qed.

Lemma Accounted_tick (w : World) (dt : Z) (lvl : Level) :
  Inv w -> Accounted w -> 0 <= dt -> clock (tick dt lvl w) < TWO32 ->
  Accounted (tick dt lvl w).
Proof.
  intros HI HA Hdt Hc. unfold Inv, Accounted, phase_floor, count in *.
  enter_loop w.
  destruct HI as (Ha & Hw & Hb & Hp & Ht & Hc0).
  destruct HA as (A1 & A2 & A3 & A4 & A5 & A6 & A7).
  unfold WORK_TIME, BREAK_TIME, INT_MAX in *.
  destruct pressed, currentState0, breakAwaitingButton0; mrun.
  all: try (specialize (Hw eq_refl); subst);
    try (specialize (Hb eq_refl); subst);
    no_wrap; bools; unfold TWO32 in *;
    repeat match goal with
           | |- context [ sint ?z ] => rewrite (sint_small z) by lia
           end;
    cbn [filter is_entry String.eqb Ascii.eqb Bool.eqb State_eqb andb
         List.length] in *;
    repeat split; try lia.
Qed.

Lemma reachable_Accounted (w : World) :
  reachable w -> clock w < TWO32 -> Accounted w.
Proof.
  induction 1 as [n lvl | w dt lvl Hr IH Hdt]; intros Hc.
  - apply Accounted_boot.
  - apply Accounted_tick; auto using reachable_Inv.
    apply IH. pose proof (clock_tick w dt lvl Hdt). lia.
Qed.

(** X14.  In every state the sketch reaches the progress counter is
    between 0 and 4, and at least 1 while the machine is in WORK or BREAK:
    a running or just finished pomodoro always lights the first LED. *)
Theorem progress_counter_range (w : World) :
  reachable w ->
  0 <= pomodoroCount (fsm w) <= 4 /\
  (currentState (fsm w) <> IDLE ->
   1 <= pomodoroCount (fsm w) /\ pin_level P1 (out w) = Some HIGH).
Proof.
  intros Hr.
  destruct (reachable_Inv w Hr) as (_ & _ & _ & Hp & _).
  destruct (reachable_Steady w Hr) as (S1 & _).
  destruct (reachable_Shown w Hr) as (H1 & _).
  split; [exact Hp|]. intros Hs. specialize (S1 Hs).
  split; [lia|]. rewrite H1.
  destruct (1 <=? pomodoroCount (fsm w)) eqn:E; [reflexivity|].
  apply Z.leb_gt in E. lia.
Qed.

(** X15.  When the break timer expires in the running sketch (clock not
    wrapped), the same iteration starts the waiting animation with the LED
    off: the break is longer than the blink interval, so the first toggle is
    due at once, the blink flag becomes false, the toggle time is the clock
    reading at the start of the iteration, and blue is switched off. *)
Theorem break_expiry_starts_blinking (w0 : World) (dt : Z) (lvl : Level) :
  reachable w0 ->
  0 <= dt ->
  clock w0 + dt < TWO32 ->
  break_expires (elapse dt lvl w0) = true ->
  breakAwaitingButton (fsm (tick dt lvl w0)) = true /\
  waitBlinkOn (fsm (tick dt lvl w0)) = false /\
  waitBlinkLast (fsm (tick dt lvl w0)) = clock w0 + dt /\
  pin_level RGB_B (out (tick dt lvl w0)) = Some HIGH.
Proof.
  intros Hr Hdt Hc He.
  destruct (reachable_Inv w0 Hr) as (_ & _ & Hb & _ & _ & Hc0).
  destruct (reachable_Steady w0 Hr) as (_ & S2 & _).
  assert (HB : BreakInv w0) by (apply reachable_BreakInv; [exact Hr | lia]).
  unfold BreakInv in HB. enter_loop w0.
  destruct pressed, currentState0, breakAwaitingButton0; try discriminate.
  specialize (Hb eq_refl). subst.
  destruct (HB eq_refl) as (Hps & _).
  destruct (S2 eq_refl eq_refl) as (-> & ->).
  unfold BREAK_TIME, WAIT_BLINK_MS in *.
  mrun; no_wrap; bools; try lia; pins; repeat split; try reflexivity.
  all: try discriminate.
Qed.

(** X16.  While the clock has not wrapped, the cumulative metrics never
    claim more time than has passed and never overflow: focus and rest time
    together are at most the uptime, the session time is at most the
    uptime, and every counted pomodoro carries at least the work duration
    and the pulse in focus time. *)
Theorem metrics_bounded_by_uptime (w : World) :
  reachable w ->
  clock w < TWO32 ->
  0 <= totalFocusTimeMs (metrics w) /\
  0 <= totalRestTimeMs (metrics w) /\
  totalFocusTimeMs (metrics w) + totalRestTimeMs (metrics w) <= clock w /\
  0 <= totalSessionTimeMs (metrics w) <= clock w /\
  totalPomodoroCount (metrics w) * (WORK_TIME + 200)
    <= totalFocusTimeMs (metrics w).
Proof.
  intros Hr Hc.
  destruct (reachable_Accounted w Hr Hc) as (A1 & A2 & A3 & A4 & A5 & A6 & _).
  repeat split; try lia; tauto.
Qed.

(** X17.  While the clock has not wrapped, [totalPomodoroCount] is the
    number of times BREAK has been entered, and it stays far below
    [INT_MAX]: the increment cannot overflow. *)
Theorem tally_counts_breaks (w : World) :
  reachable w ->
  clock w < TWO32 ->
  totalPomodoroCount (metrics w) =
    Z.of_nat (count (is_entry BREAK) (out w)) /\
  0 <= totalPomodoroCount (metrics w) < INT_MAX.
Proof.
  intros Hr Hc.
  destruct (reachable_Accounted w Hr Hc) as (A1 & A2 & A3 & A4 & A5 & A6 & A7).
  split; [now rewrite A7|].
  unfold WORK_TIME, TWO32, INT_MAX in *. lia.
Qed.

(** X18.  The first press after power-up is never swallowed by the
    cool-down: [setup] takes at least 300 ms, so in the running sketch
    (clock not wrapped), as long as no press has been consumed, the
    iteration in which the detector accepts the low level consumes it. *)
Theorem first_press_is_reported (w0 : World) (dt : Z) (lvl : Level) :
  reachable w0 ->
  0 <= dt ->
  clock w0 + dt < TWO32 ->
  count is_button_log (out w0) = 0%nat ->
  stableState (button w0) = HIGH ->
  stableState (button (tick dt lvl w0)) = LOW ->
  pressed_in (elapse dt lvl w0) = true.
Proof.
  intros Hr Hdt Hc Hn Hh Hl.
  destruct (reachable_Steady w0 Hr) as (_ & _ & S3 & S4).
  specialize (S4 Hn).
  assert (Hb : button (tick dt lvl w0) =
               button (exec buttonPressed (elapse dt lvl w0))).
  { clear. enter_loop w0.
    destruct pressed, currentState0, breakAwaitingButton0; mrun; reflexivity. }
  rewrite Hb in Hl.
  assert (Hlow : lvl = LOW).
  { destruct lvl; [reflexivity|]. exfalso. clear - Hh Hl.
    open_world w0. unfold buttonPressed in *. mstep. subst.
    destruct lastReading0; mrun; discriminate. }
  subst lvl.
  pose proof (poll_commit (clock w0 + dt) w0 Hh Hl) as Hp.
  unfold pressed_in. change (buttonPressed (elapse dt LOW w0))
    with (poll (clock w0 + dt) LOW w0).
  rewrite Hp, S4. unfold usub, COOLDOWN_MS.
  rewrite Z.sub_0_r.
  rewrite (u32_small (clock w0 + dt)) by lia.
  rewrite (u32_small (clock w0 + dt)) by lia.
  apply Z.leb_le. lia.
Qed.

(** ** Runs without a press *)

(** X19.  The machine never leaves IDLE or BREAK on its own: over any run
    in which no press is consumed, however long, a machine in IDLE or BREAK
    stays there, and focus time, rest time and the pomodoro tally keep their
    values; a break waits for the button indefinitely. *)
Theorem idle_and_break_wait_for_button (inputs : list (Z * Level))
        (w : World) :
  currentState (fsm w) <> WORK ->
  no_press inputs w ->
  currentState (fsm (run inputs w)) = currentState (fsm w) /\
  totalFocusTimeMs (metrics (run inputs w)) = totalFocusTimeMs (metrics w) /\
  totalRestTimeMs (metrics (run inputs w)) = totalRestTimeMs (metrics w) /\
  totalPomodoroCount (metrics (run inputs w)) =
    totalPomodoroCount (metrics w).
Proof.
  revert w. induction inputs as [|[dt lvl] rest IH]; intros w Hs Hn.
  - repeat split.
  - cbn [no_press run] in *. destruct Hn as (Hp & Hn).
    assert (Hstep :
      currentState (fsm (tick dt lvl w)) = currentState (fsm w) /\
      totalFocusTimeMs (metrics (tick dt lvl w)) =
        totalFocusTimeMs (metrics w) /\
      totalRestTimeMs (metrics (tick dt lvl w)) =
        totalRestTimeMs (metrics w) /\
      totalPomodoroCount (metrics (tick dt lvl w)) =
        totalPomodoroCount (metrics w)).
    { clear - Hs Hp. enter_loop w.
      destruct currentState0, breakAwaitingButton0; try congruence;
        mrun; repeat split; reflexivity. }
    destruct Hstep as (E1 & E2 & E3 & E4).
    rewrite <- E1, <- E2, <- E3, <- E4.
    apply IH; [congruence | exact Hn].
Qed.

(** ** The further properties at concrete inputs *)

Lemma reachable_awaiting : reachable awaiting.
Proof.
  apply reachable_run; [|apply reach_boot].
  unfold cycle, press. repeat constructor; cbn; lia.
Qed.

Lemma reachable_resting : reachable resting.
Proof.
  apply reachable_run; [|apply reach_boot].
  unfold press. repeat constructor; cbn; lia.
Qed.

Lemma quiet_iteration_only_polls_witness :
  pressed_in quiet_work = false /\
  exec loop quiet_work = exec buttonPressed quiet_work.
Proof.
  assert (Hp : pressed_in quiet_work = false) by (vm_compute; reflexivity).
  split; [exact Hp|].
  apply (quiet_iteration_only_polls quiet_work Hp); vm_compute; reflexivity.
Defined.

Lemma awaiting_iteration_blinks_witness :
  pressed_in blinking = false /\
  currentState (fsm blinking) = BREAK /\
  breakAwaitingButton (fsm blinking) = true /\
  waitBlinkOn (fsm (exec loop blinking)) =
    (if blink_due blinking then negb (waitBlinkOn (fsm blinking))
     else waitBlinkOn (fsm blinking)).
Proof.
  assert (Hp : pressed_in blinking = false) by (vm_compute; reflexivity).
  assert (Hs : currentState (fsm blinking) = BREAK)
    by (vm_compute; reflexivity).
  assert (Ha : breakAwaitingButton (fsm blinking) = true)
    by (vm_compute; reflexivity).
  split; [exact Hp | split; [exact Hs | split; [exact Ha |]]].
  exact (proj1 (awaiting_iteration_blinks blinking Hp Hs Ha)).
Defined.

Lemma legacy_work_expiry_counts_up_witness :
  pressed_in expired_work = false /\
  currentState (fsm expired_work) = WORK /\
  timer_expired expired_work = true /\
  pomodoroCount (fsm (exec Legacy.loop expired_work)) =
    Z.min 4 (pomodoroCount (fsm expired_work) + 1).
Proof.
  assert (Hp : pressed_in expired_work = false) by (vm_compute; reflexivity).
  assert (Hs : currentState (fsm expired_work) = WORK)
    by (vm_compute; reflexivity).
  assert (He : timer_expired expired_work = true)
    by (vm_compute; reflexivity).
  assert (Hr : - INT_MAX - 1 <= pomodoroCount (fsm expired_work) < INT_MAX)
    by (vm_compute; split; congruence).
  split; [exact Hp | split; [exact Hs | split; [exact He |]]].
  exact (proj1 (proj2 (legacy_work_expiry_counts_up expired_work Hp Hs He Hr))).
Defined.

Lemma progress_leds_show_counter_witness :
  pin_level P1 (out awaiting) =
    Some (if 1 <=? pomodoroCount (fsm awaiting) then HIGH else LOW).
Proof.
  exact (proj1 (progress_leds_show_counter awaiting reachable_awaiting)).
Defined.

Lemma state_led_shows_state_witness :
  pin_level RGB_G (out awaiting) = Some HIGH.
Proof.
  exact (proj1 (proj2 (state_led_shows_state awaiting reachable_awaiting))).
Defined.

Lemma writes_respect_wiring_witness :
  forallb write_ok (out awaiting) = true.
Proof.
  exact (proj1 (writes_respect_wiring awaiting reachable_awaiting)).
Defined.

Lemma progress_counter_range_witness :
  0 <= pomodoroCount (fsm awaiting) <= 4.
Proof.
  exact (proj1 (progress_counter_range awaiting reachable_awaiting)).
Defined.

Lemma break_expiry_starts_blinking_witness :
  break_expires (elapse 10000 HIGH resting) = true /\
  waitBlinkOn (fsm (tick 10000 HIGH resting)) = false.
Proof.
  assert (He : break_expires (elapse 10000 HIGH resting) = true)
    by (vm_compute; reflexivity).
  split; [exact He|].
  apply (break_expiry_starts_blinking resting 10000 HIGH reachable_resting).
  - lia.
  - vm_compute; reflexivity.
  - exact He.
Defined.

Lemma metrics_bounded_by_uptime_witness :
  clock awaiting < TWO32 /\
  totalFocusTimeMs (metrics awaiting) + totalRestTimeMs (metrics awaiting)
    <= clock awaiting.
Proof.
  assert (Hc : clock awaiting < TWO32) by (vm_compute; reflexivity).
  split; [exact Hc|].
  apply (metrics_bounded_by_uptime awaiting reachable_awaiting Hc).
Defined.

Lemma tally_counts_breaks_witness :
  clock awaiting < TWO32 /\
  totalPomodoroCount (metrics awaiting) =
    Z.of_nat (count (is_entry BREAK) (out awaiting)).
Proof.
  assert (Hc : clock awaiting < TWO32) by (vm_compute; reflexivity).
  split; [exact Hc|].
  exact (proj1 (tally_counts_breaks awaiting reachable_awaiting Hc)).
Defined.

Lemma first_press_is_reported_witness :
  count is_button_log (out first_low) = 0%nat /\
  stableState (button first_low) = HIGH /\
  stableState (button (tick 30 LOW first_low)) = LOW /\
  pressed_in (elapse 30 LOW first_low) = true.
Proof.
  assert (Hr : reachable first_low).
  { apply reach_tick; [apply reach_boot | lia]. }
  assert (Hn : count is_button_log (out first_low) = 0%nat)
    by (vm_compute; reflexivity).
  assert (Hh : stableState (button first_low) = HIGH)
    by (vm_compute; reflexivity).
  assert (Hl : stableState (button (tick 30 LOW first_low)) = LOW)
    by (vm_compute; reflexivity).
  split; [exact Hn | split; [exact Hh | split; [exact Hl |]]].
  apply (first_press_is_reported first_low 30 LOW Hr); try assumption.
  - lia.
  - vm_compute; reflexivity.
Defined.

Lemma idle_and_break_wait_for_button_witness :
  currentState (fsm awaiting) <> WORK /\
  no_press [(500, HIGH); (500, HIGH)] awaiting /\
  currentState (fsm (run [(500, HIGH); (500, HIGH)] awaiting)) =
    currentState (fsm awaiting).
Proof.
  assert (Hs : currentState (fsm awaiting) <> WORK)
    by (vm_compute; discriminate).
  assert (Hn : no_press [(500, HIGH); (500, HIGH)] awaiting)
    by (vm_compute; repeat split).
  split; [exact Hs | split; [exact Hn |]].
  pose proof (idle_and_break_wait_for_button
                [(500, HIGH); (500, HIGH)] awaiting) as T.
  specialize (T Hs). specialize (T Hn).
  exact (proj1 T).
Defined.
